(** * WebhookProgressPlugin: a shallow embedding and its verified properties

    The plugin lives in [WebhookProgressPlugin.py].  It tracks one print job
    (idle or printing, job name, start time, last reported percentage) and
    sends [print_started], [progress_update] and [print_ended] events to a
    webhook URL, each from a thread of its own.

    Python floats are IEEE-754 binary64 numbers; they are modelled with the
    bit-exact specification of [SpecFloat] (53 bits of precision, round to
    nearest even).  Methods of the plugin are computations in a state and
    exception monad over a [World]: the fields of [self], the log, the
    threads that were started, the HTTP requests that were issued and the
    number of calls of [time.time()] so far.  What the host and the network
    answer is given by oracles. *)

From Stdlib Require Import ZArith List String Lia Bool.
From Stdlib Require Import Floats.SpecFloat.
Import ListNotations.

Local Open Scope string_scope.
Local Open Scope list_scope.
Local Open Scope Z_scope.

(** ** Python floats *)

Module PyFloat.

Definition prec : Z := 53.
Definition emax : Z := 1024.

Definition float : Type := spec_float.

(** A Python float is always a well-formed binary64 number. *)
Definition valid (x : float) : bool := valid_binary prec emax x.

Definition fmul : float -> float -> float := SFmul prec emax.
Definition fdiv : float -> float -> float := SFdiv prec emax.
Definition fsub : float -> float -> float := SFsub prec emax.
Definition flt : float -> float -> bool := SFltb.
Definition fle : float -> float -> bool := SFleb.

(** [float(z)] for a Python int [z]: rounding to nearest even. *)
Definition of_Z (z : Z) : float := binary_normalize prec emax z 0 false.

Definition zero : float := S754_zero false.
Definition one : float := S754_finite false 4503599627370496 (-52).
(** The literal [100] of [progress * 100], converted to a float. *)
Definition c100 : float := S754_finite false 7036874417766400 (-46).
(** The literal [0.01]: the double nearest to 1/100. *)
Definition c001 : float := S754_finite false 5764607523034235 (-59).

Definition is_zero (x : float) : bool :=
  match x with S754_zero _ => true | _ => false end.

(** The [max] of the specification, as Python's [max(a, b)] on two floats:
    [b] replaces [a] only when [b > a]. It is not part of the code; the
    divisor of the code is compared with it. *)
Definition py_max (a b : float) : float := if flt a b then b else a.

End PyFloat.
Import PyFloat.

(** ** Python values, exceptions and the monad of the methods *)

Inductive exn : Type :=
| ValueError (what : string)
| OverflowError (what : string)
| ZeroDivisionError
| TypeError (what : string)
| KeyError (key : string)
| HTTPError (code : Z) (reason : string)
| URLError (reason : string)
| TimeoutError
| OtherException (what : string).

Inductive outcome (A : Type) : Type :=
| Return (a : A)
| Raise (e : exn).
Arguments Return {A} a.
Arguments Raise {A} e.

#[warnings="-register-all"] Inductive pyval : Type :=
| PNone
| PInt (z : Z)
| PFloat (f : float)
| PStr (s : string)
| PDict (d : list (string * pyval)).

Definition dict : Type := list (string * pyval).

Fixpoint dict_get (key : string) (d : dict) : option pyval :=
  match d with
  | [] => None
  | (k, v) :: rest => if String.eqb k key then Some v else dict_get key rest
  end.

(** [payload[key]] *)
Definition py_getitem (payload : pyval) (key : string) : outcome pyval :=
  match payload with
  | PDict d =>
      match dict_get key d with
      | Some v => Return v
      | None => Raise (KeyError key)
      end
  | _ => Raise (TypeError "object is not subscriptable")
  end.

(** [int(x)] on a float: truncation toward zero; NaN and the infinities
    raise. *)
Definition py_int (x : float) : outcome Z :=
  match x with
  | S754_nan => Raise (ValueError "cannot convert float NaN to integer")
  | S754_infinity _ => Raise (OverflowError "cannot convert float infinity to integer")
  | S754_zero _ => Return 0
  | S754_finite s m e => Return (cond_Zopp s (Z.shiftl (Zpos m) e))
  end.

(** The [floor] of the specification, as [math.floor(x)] on a float: the
    largest integer that is not above the value. It is not part of the
    code; the percentage of the code is compared with it. *)
Definition py_floor (x : float) : outcome Z :=
  match x with
  | S754_nan => Raise (ValueError "cannot convert float NaN to integer")
  | S754_infinity _ => Raise (OverflowError "cannot convert float infinity to integer")
  | S754_zero _ => Return 0
  | S754_finite s m e => Return (Z.shiftl (cond_Zopp s (Zpos m)) e)
  end.

(** [a - b] where [a] is a float and [b] a number. *)
Definition py_sub (a : float) (b : pyval) : outcome float :=
  match b with
  | PFloat f => Return (fsub a f)
  | PInt z =>
      match of_Z z with
      | S754_infinity _ => Raise (OverflowError "int too large to convert to float")
      | f => Return (fsub a f)
      end
  | _ => Raise (TypeError "unsupported operand type(s) for -")
  end.

(** [a / b] on floats: a zero divisor raises. *)
Definition py_truediv (a b : float) : outcome float :=
  if is_zero b then Raise ZeroDivisionError else Return (fdiv a b).

(** ** The plugin object and the world around it *)

Record Plugin : Type := mkPlugin {
  _webhook_url : string;
  _last_progress : Z;
  _is_printing : bool;
  _current_job_name : string;
  _print_start_time : pyval
}.

Inductive log_msg : Type :=
| MsgInitialized
| MsgNoUrlConfigured
| MsgConnectionState (connection_state : string)
| MsgNotConfiguredSkipping
| MsgCheckError (e : exn)
| MsgSentSuccessfully (event_type : pyval)
| MsgReturnedStatus (code : Z)
| MsgHTTPError (code : Z) (reason : string)
| MsgURLError (reason : string)
| MsgUnexpectedError (e : exn)
| MsgUrlSet (url : string).

Definition log_entry : Type := (string * log_msg)%type.

Record Request : Type := mkRequest {
  full_url : string;
  data : string;
  headers : list (string * string)
}.

Record World : Type := mkWorld {
  self : Plugin;
  logged : list log_entry;
  threads : list pyval;
  requests : list Request;
  time_calls : nat
}.

(** What the host hands to the plugin. [getName] is [None] for a job
    without the attribute, else what the call [job.getName()] does: it
    returns a name or it raises. *)
Record Job : Type := mkJob {
  getName : option (outcome string);
  getProgress : option (option float)
}.

(** [job.getName() if hasattr(job, 'getName') else "Unknown"] *)
Definition job_name (job : Job) : outcome string :=
  match getName job with
  | Some call => call
  | None => Return "Unknown"
  end.

Record Device : Type := mkDevice {
  activePrintJob : option (option Job);
  printProgress : option (option float)
}.

Definition M (A : Type) : Type := World -> outcome A * World.

Definition ret {A : Type} (a : A) : M A := fun w => (Return a, w).

Definition bind {A B : Type} (c : M A) (k : A -> M B) : M B :=
  fun w =>
    match c w with
    | (Return a, w') => k a w'
    | (Raise e, w') => (Raise e, w')
    end.

Notation "x <- c ;; k" := (bind c (fun x => k))
  (at level 61, c at next level, right associativity).
Notation "c ;;; k" := (bind c (fun _ => k))
  (at level 61, right associativity).

Definition lift {A : Type} (o : outcome A) : M A := fun w => (o, w).

(** [try: c except ... as e: h e] where the handlers together catch every
    [Exception]. *)
Definition try_except {A : Type} (c : M A) (h : exn -> M A) : M A :=
  fun w =>
    match c w with
    | (Return a, w') => (Return a, w')
    | (Raise e, w') => h e w'
    end.

Definition get_self {A : Type} (field : Plugin -> A) : M A :=
  fun w => (Return (field (self w)), w).

Definition modify_self (f : Plugin -> Plugin) : M unit :=
  fun w => (Return tt,
            mkWorld (f (self w)) (logged w) (threads w) (requests w) (time_calls w)).

Definition set_webhook_url (v : string) : M unit :=
  modify_self (fun p => mkPlugin v (_last_progress p) (_is_printing p)
                                 (_current_job_name p) (_print_start_time p)).
Definition set_last_progress (v : Z) : M unit :=
  modify_self (fun p => mkPlugin (_webhook_url p) v (_is_printing p)
                                 (_current_job_name p) (_print_start_time p)).
Definition set_is_printing (v : bool) : M unit :=
  modify_self (fun p => mkPlugin (_webhook_url p) (_last_progress p) v
                                 (_current_job_name p) (_print_start_time p)).
Definition set_current_job_name (v : string) : M unit :=
  modify_self (fun p => mkPlugin (_webhook_url p) (_last_progress p) (_is_printing p)
                                 v (_print_start_time p)).
Definition set_print_start_time (v : pyval) : M unit :=
  modify_self (fun p => mkPlugin (_webhook_url p) (_last_progress p) (_is_printing p)
                                 (_current_job_name p) v).

Definition Logger_log (level : string) (msg : log_msg) : M unit :=
  fun w => (Return tt,
            mkWorld (self w) (logged w ++ [(level, msg)]) (threads w)
                    (requests w) (time_calls w)).

(** [threading.Thread(target=self._send_webhook_request, args=(payload,))]
    followed by [start()]: the thread waits in [threads] until it runs. *)
Definition Thread_start (payload : pyval) : M unit :=
  fun w => (Return tt,
            mkWorld (self w) (logged w) (threads w ++ [payload])
                    (requests w) (time_calls w)).

Definition placeholder_url : string := "https://your-webhook-url.com/progress".

(** [not self._webhook_url or self._webhook_url == "https://..."] *)
Definition url_unconfigured (url : string) : bool :=
  String.eqb url "" || String.eqb url placeholder_url.

(** ** Dyadic numbers, for reasoning about rounding *)

(** [dle m1 e1 m2 e2]: the number [m1 * 2^e1] is at most [m2 * 2^e2],
    stated on integers after scaling both by the smaller exponent. *)
Definition dle (m1 e1 m2 e2 : Z) : Prop :=
  m1 * 2 ^ (e1 - Z.min e1 e2) <= m2 * 2 ^ (e2 - Z.min e1 e2).

(** What [k] right shifts of [M0] leave in a shift record: the quotient,
    and cleared round and sticky bits when nothing was lost. *)
Definition shr_inv (M0 k : Z) (mrs : shr_record) : Prop :=
  shr_m mrs = M0 / 2 ^ k /\
  (M0 mod 2 ^ k = 0 -> shr_r mrs = false /\ shr_s mrs = false).

(** ** Inputs used in examples *)

(** 0.5 *)
Definition half : float := S754_finite false 4503599627370496 (-53).
(** The double nearest to 0.15, which lies below 15/100. *)
Definition c015 : float := S754_finite false 5404319552844595 (-55).

(** 2^-10, a progress below one percent. *)
Definition tiny : float := S754_finite false 4503599627370496 (-62).

Definition benchy : Job := mkJob (Some (Return "benchy.gcode")) None.
(** A job whose [getName()] raises. *)
Definition ghost : Job :=
  mkJob (Some (Raise (OtherException "wrapped object has been deleted"))) None.

Definition example_clock (n : nat) : float := of_Z (1700000000 + Z.of_nat n).
Definition example_json_dumps (payload : pyval) : outcome string := Return "{}".
Definition example_url_accepted (url : string) : bool := String.prefix "http" url.
Definition example_urlopen_result (n : nat) (req : Request) (timeout : Z) : outcome Z :=
  Return 200.
Definition example_url : string := "http://127.0.0.1:8080/hook".

Section Methods.

(** The value of the [n]-th call of [time.time()]. *)
Variable time_time : nat -> float.
(** [json.dumps(payload).encode('utf-8')] *)
Variable json_dumps : pyval -> outcome string.
(** Whether [urllib.request.Request] accepts the URL (it raises
    [ValueError] on a URL without a scheme). *)
Variable url_accepted : string -> bool.
(** The answer to the [n]-th HTTP request, opened with a timeout in
    seconds: a status code, or an exception. *)
Variable urlopen_result : nat -> Request -> Z -> outcome Z.

Definition time_time_call : M float :=
  fun w => (Return (time_time (time_calls w)),
            mkWorld (self w) (logged w) (threads w) (requests w) (S (time_calls w))).

Definition urllib_Request (url body : string) (hs : list (string * string))
  : outcome Request :=
  if url_accepted url then Return (mkRequest url body hs)
  else Raise (ValueError "unknown url type").

Definition urlopen (req : Request) (timeout : Z) : M Z :=
  fun w => (urlopen_result (List.length (requests w)) req timeout,
            mkWorld (self w) (logged w) (threads w) (requests w ++ [req]) (time_calls w)).

Definition _load_settings : M unit :=
  set_webhook_url placeholder_url ;;;
  url <- get_self _webhook_url ;;
  if url_unconfigured url then Logger_log "w" MsgNoUrlConfigured else ret tt.

Definition _on_connection_state_changed (connection_state : string) : M unit :=
  Logger_log "d" (MsgConnectionState connection_state).

(** The [payload] dict that [_send_webhook_update] builds. *)
Definition event_payload (event_type : string) (d : dict) : pyval :=
  PDict [("event_type", PStr event_type);
         ("data", PDict d);
         ("plugin_version", PStr "1.0.0")].

Definition _send_webhook_update (event_type : string) (d : dict) : M unit :=
  url <- get_self _webhook_url ;;
  if url_unconfigured url then Logger_log "w" MsgNotConfiguredSkipping
  else
    let payload := event_payload event_type d in
    Thread_start payload.

Definition _on_print_job_changed (job : option Job) : M unit :=
  match job with
  | None =>
      set_is_printing false ;;;
      set_current_job_name "" ;;;
      set_last_progress (-1) ;;;
      now <- time_time_call ;;
      _send_webhook_update "print_ended"
        [("message", PStr "Print job ended or cancelled");
         ("timestamp", PFloat now)]
  | Some j =>
      set_is_printing true ;;;
      name <- lift (job_name j) ;;
      set_current_job_name name ;;;
      now <- time_time_call ;;
      set_print_start_time (PFloat now) ;;;
      set_last_progress 0 ;;;
      name <- get_self _current_job_name ;;
      start <- get_self _print_start_time ;;
      _send_webhook_update "print_started"
        [("job_name", PStr name); ("start_time", start)]
  end.

(** [(progress if progress > 0 else 0.01)] *)
Definition divisor (progress : float) : float :=
  if flt zero progress then progress else c001.

Definition _on_print_progress_changed (progress : float) : M unit :=
  printing <- get_self _is_printing ;;
  if negb printing then ret tt
  else
    progress_percent <- lift (py_int (fmul progress c100)) ;;
    last <- get_self _last_progress ;;
    if progress_percent >? last then
      set_last_progress progress_percent ;;;
      now <- time_time_call ;;
      start <- get_self _print_start_time ;;
      elapsed_time <- lift (py_sub now start) ;;
      estimated_total <- lift (py_truediv elapsed_time (divisor progress)) ;;
      let estimated_remaining := fsub estimated_total elapsed_time in
      name <- get_self _current_job_name ;;
      timestamp <- time_time_call ;;
      _send_webhook_update "progress_update"
        [("job_name", PStr name);
         ("progress_percent", PInt progress_percent);
         ("elapsed_time_seconds", PFloat elapsed_time);
         ("estimated_remaining_seconds", PFloat estimated_remaining);
         ("timestamp", PFloat timestamp)]
    else ret tt.

(** The body of the [for device in output_devices] loop. *)
Definition check_device (device : Device) : M unit :=
  match activePrintJob device with
  | None => ret tt
  | Some (Some job) =>
      printing <- get_self _is_printing ;;
      (if negb printing then _on_print_job_changed (Some job) else ret tt) ;;;
      let progress :=
        match getProgress job with
        | Some v => v
        | None =>
            match printProgress device with
            | Some v => v
            | None => Some zero
            end
        end in
      match progress with
      | Some p => _on_print_progress_changed p
      | None => ret tt
      end
  | Some None =>
      printing <- get_self _is_printing ;;
      if printing then _on_print_job_changed None else ret tt
  end.

Fixpoint check_devices (output_devices : list Device) : M unit :=
  match output_devices with
  | [] => ret tt
  | device :: rest => check_device device ;;; check_devices rest
  end.

Definition _check_print_progress (output_devices : list Device) : M unit :=
  url <- get_self _webhook_url ;;
  if url_unconfigured url then ret tt
  else
    try_except (check_devices output_devices)
               (fun e => Logger_log "e" (MsgCheckError e)).

Definition request_headers : list (string * string) :=
  [("Content-Type", "application/json");
   ("User-Agent", "Cura-WebhookProgressPlugin/1.0.0")].

Definition _send_webhook_request (payload : pyval) : M unit :=
  try_except
    (json_data <- lift (json_dumps payload) ;;
     url <- get_self _webhook_url ;;
     req <- lift (urllib_Request url json_data request_headers) ;;
     code <- urlopen req 10 ;;
     if code =? 200 then
       event_type <- lift (py_getitem payload "event_type") ;;
       Logger_log "d" (MsgSentSuccessfully event_type)
     else Logger_log "w" (MsgReturnedStatus code))
    (fun e =>
       match e with
       | HTTPError code reason => Logger_log "e" (MsgHTTPError code reason)
       | URLError reason => Logger_log "e" (MsgURLError reason)
       | _ => Logger_log "e" (MsgUnexpectedError e)
       end).

Definition setWebhookUrl (url : string) : M unit :=
  set_webhook_url url ;;;
  Logger_log "i" (MsgUrlSet url).

(** The fields as [__init__] sets them before it loads the settings. *)
Definition new_plugin : Plugin := mkPlugin "" (-1) false "" (PInt 0).

(** [__init__] after the fields: [_load_settings], then the log line. The
    timer it starts is the source of the [TimerTick] actions below. *)
Definition __init__ : M unit :=
  _load_settings ;;;
  Logger_log "i" MsgInitialized.

Definition init_world : World :=
  snd (__init__ (mkWorld new_plugin [] [] [] 0%nat)).

(** *** The plugin in its host: what can happen, one thing at a time *)

Inductive action : Type :=
| PrintJobChanged (job : option Job)
| PrintProgressChanged (progress : float)
| ConnectionStateChanged (connection_state : string)
| TimerTick (output_devices : list Device)
| SetWebhookUrl (url : string)
| ThreadRun (n : nat).

(** Takes the [n]-th waiting thread out of [threads]. *)
Definition take_thread (n : nat) : M (option pyval) :=
  fun w =>
    match nth_error (threads w) n with
    | Some payload =>
        (Return (Some payload),
         mkWorld (self w) (logged w)
                 (firstn n (threads w) ++ skipn (S n) (threads w))
                 (requests w) (time_calls w))
    | None => (Return None, w)
    end.

Definition perform (a : action) : M unit :=
  match a with
  | PrintJobChanged job => _on_print_job_changed job
  | PrintProgressChanged progress => _on_print_progress_changed progress
  | ConnectionStateChanged st => _on_connection_state_changed st
  | TimerTick output_devices => _check_print_progress output_devices
  | SetWebhookUrl url => setWebhookUrl url
  | ThreadRun n =>
      t <- take_thread n ;;
      match t with
      | Some payload => _send_webhook_request payload
      | None => ret tt
      end
  end.

(** The world after an action; an exception that leaves a handler is lost
    in the host's signal dispatch and the plugin lives on. *)
Definition exec (a : action) (w : World) : World := snd (perform a w).

Definition run (acts : list action) (w : World) : World :=
  fold_left (fun w' a => exec a w') acts w.

Inductive reachable : World -> Prop :=
| reachable_init : reachable init_world
| reachable_step (a : action) (w : World) :
    reachable w -> reachable (exec a w).

(** *** Observations *)

Definition is_blocked_send (entry : log_entry) : bool :=
  match entry with
  | (_, MsgNotConfiguredSkipping) => true
  | _ => false
  end.

(** How often [_send_webhook_update] ran: each run either starts a
    thread or logs that the send is blocked. Only meaningful as long as
    no thread is taken out of [threads]. *)
Definition send_attempts (w : World) : nat :=
  (List.length (threads w) + List.length (filter is_blocked_send (logged w)))%nat.

(** [c] keeps [P], whether it returns or raises. *)
Definition preserves {A : Type} (P : World -> Prop) (c : M A) : Prop :=
  forall w, P w -> P (snd (c w)).

(** What every reachable state of the tracker satisfies: idle means no
    progress was reported, the percentage is never below -1, and the start
    time is the 0 of [__init__] or a value of [time.time()]. A state that
    is printing with -1 is among them: a job start cut short by a raising
    [getName()] leaves it. *)
Definition tracker_wf (p : Plugin) : Prop :=
  (_is_printing p = false -> _last_progress p = -1) /\
  -1 <= _last_progress p /\
  (_print_start_time p = PInt 0 \/ exists t, _print_start_time p = PFloat t).

(** The tracker as job starts that ran to their end leave it: idle means
    no progress was reported; printing means a progress of at least 0 and
    a start time that [time.time()] gave. *)
Definition tracker_inv (p : Plugin) : Prop :=
  (_is_printing p = false -> _last_progress p = -1) /\
  (_is_printing p = true ->
   0 <= _last_progress p /\ exists t, _print_start_time p = PFloat t).

(** No URL is configured, no thread waits, and the HTTP requests issued so
    far are [R]. *)
Definition silenced (R : list Request) (w : World) : Prop :=
  requests w = R /\ threads w = [] /\
  url_unconfigured (_webhook_url (self w)) = true.


(** *** The stream of events, and what the timer reads *)

(** The progress that [_check_print_progress] takes for a device with a
    job: [job.getProgress()] when the job has it, else
    [device.printProgress] when the device has it, else [0.0]. *)
Definition polled_progress (device : Device) (job : Job) : option float :=
  match getProgress job with
  | Some v => v
  | None =>
      match printProgress device with
      | Some v => v
      | None => Some zero
      end
  end.

(** The tracker as a reader of the events knows it: [None] while no job
    prints, else the last percentage. *)
Definition tracker_state (p : Plugin) : option Z :=
  if _is_printing p then Some (_last_progress p) else None.

(** One event read by a consumer that follows the job: a start opens a
    job at 0, an end closes it, and a progress update is accepted only
    inside a job and only with a larger percentage. *)
Definition event_step (st : option Z) (payload : pyval) : option (option Z) :=
  match py_getitem payload "event_type", py_getitem payload "data" with
  | Return (PStr ev), Return (PDict d) =>
      if String.eqb ev "print_started" then Some (Some 0)
      else if String.eqb ev "print_ended" then Some None
      else if String.eqb ev "progress_update" then
        match st, dict_get "progress_percent" d with
        | Some l, Some (PInt k) => if l <? k then Some (Some k) else None
        | _, _ => None
        end
      else None
  | _, _ => None
  end.

Fixpoint replay (st : option Z) (events : list pyval) : option (option Z) :=
  match events with
  | [] => Some st
  | e :: rest =>
      match event_step st e with
      | Some st' => replay st' rest
      | None => None
      end
  end.

(** The call [job.getName()] returns, or the job has no such attribute. *)
Definition job_named (job : Job) : bool :=
  match job_name job with
  | Return _ => true
  | Raise _ => false
  end.

Definition device_named (device : Device) : bool :=
  match activePrintJob device with
  | Some (Some job) => job_named job
  | _ => true
  end.

(** Actions that leave the threads waiting and a URL configured, and
    whose job starts run to their end. *)
Definition keeps_stream (a : action) : bool :=
  match a with
  | ThreadRun _ => false
  | SetWebhookUrl url => negb (url_unconfigured url)
  | PrintJobChanged (Some job) => job_named job
  | TimerTick output_devices => forallb device_named output_devices
  | _ => true
  end.

(** [w'] comes after [w] with a URL configured, the invariant kept, and
    new threads whose events lead a reader from the state of [w] to the
    state of [w']. *)
Definition stream_ok (w w' : World) : Prop :=
  url_unconfigured (_webhook_url (self w')) = false /\
  tracker_inv (self w') /\
  exists events,
    threads w' = threads w ++ events /\
    replay (tracker_state (self w)) events = Some (tracker_state (self w')).

Definition streams {A : Type} (c : M A) : Prop :=
  forall w,
    url_unconfigured (_webhook_url (self w)) = false ->
    tracker_inv (self w) ->
    stream_ok w (snd (c w)).

(** A progress value of the range the host promises: a double in [[0, 1]]. *)
Definition in_unit (p : float) : bool := valid p && fle zero p && fle p one.

Definition device_in_range (device : Device) : bool :=
  match activePrintJob device with
  | Some (Some job) =>
      match polled_progress device job with
      | Some p => in_unit p
      | None => true
      end
  | _ => true
  end.

Definition action_in_range (a : action) : bool :=
  match a with
  | PrintProgressChanged p => in_unit p
  | TimerTick output_devices => forallb device_in_range output_devices
  | _ => true
  end.

(** The invariant with the bound of the data model. *)
Definition bounded_inv (p : Plugin) : Prop :=
  tracker_wf p /\ _last_progress p <= 100 /\
  (_is_printing p = false -> _current_job_name p = "").

(** The HTTP requests and the URL are what they were. *)
Definition no_io (R : list Request) (url : string) (w : World) : Prop :=
  requests w = R /\ _webhook_url (self w) = url.

(** The tracker has nothing left to report about a device: it knows
    whether the device has a job, and the last percentage is at least the
    one the device shows. *)
Definition settled (device : Device) (p : Plugin) : Prop :=
  match activePrintJob device with
  | Some (Some job) =>
      _is_printing p = true /\
      forall progress k,
        polled_progress device job = Some progress ->
        py_int (fmul progress c100) = Return k ->
        k <= _last_progress p
  | Some None => _is_printing p = false
  | None => True
  end.

(** *** Binding to the signals of the devices *)

(** A printer output device as [_on_printer_output_devices_changed] sees
    it. For each of the three signals: [None] when the device has no such
    attribute, else what [connect] does with the handler, it returns or it
    raises. *)
Record OutputDevice : Type := mkOutputDevice {
  printJobChanged : option (outcome unit);
  printProgressChanged : option (outcome unit);
  connectionStateChanged : option (outcome unit)
}.

(** What the method does, in the order it does it: it connects a handler
    of the plugin to a signal of the device at some position of the list,
    or it logs the warning that it could not connect. *)
Inductive binding_effect : Type :=
| Connected (device : nat) (signal handler : string)
| CouldNotConnect (e : exn).

(** [if hasattr(device, signal): device.signal.connect(handler)]: the
    effects, and the exception when [connect] raises. *)
Definition connect_if_present (device : nat) (signal handler : string)
           (attribute : option (outcome unit)) : list binding_effect * option exn :=
  match attribute with
  | None => ([], None)
  | Some (Return _) => ([Connected device signal handler], None)
  | Some (Raise e) => ([], Some e)
  end.

(** One statement after the other inside the [try]. *)
Definition and_then (first second : list binding_effect * option exn)
  : list binding_effect * option exn :=
  match first with
  | (effects, None) => (effects ++ fst second, snd second)
  | (effects, Some e) => (effects, Some e)
  end.

(** The body of the loop: the [try] with its [except Exception]. *)
Definition bind_device (i : nat) (device : OutputDevice) : list binding_effect :=
  match
    and_then
      (connect_if_present i "printJobChanged" "_on_print_job_changed"
         (printJobChanged device))
      (and_then
         (connect_if_present i "printProgressChanged" "_on_print_progress_changed"
            (printProgressChanged device))
         (connect_if_present i "connectionStateChanged" "_on_connection_state_changed"
            (connectionStateChanged device)))
  with
  | (effects, None) => effects
  | (effects, Some e) => effects ++ [CouldNotConnect e]
  end.

Fixpoint bind_devices (i : nat) (output_devices : list OutputDevice)
  : list binding_effect :=
  match output_devices with
  | [] => []
  | device :: rest => bind_device i device ++ bind_devices (S i) rest
  end.

Definition _on_printer_output_devices_changed (output_devices : list OutputDevice)
  : list binding_effect :=
  bind_devices 0 output_devices.

(** The signals with the handlers that belong to them. *)
Definition signal_handlers : list (string * string) :=
  [("printJobChanged", "_on_print_job_changed");
   ("printProgressChanged", "_on_print_progress_changed");
   ("connectionStateChanged", "_on_connection_state_changed")].

Definition signal_attribute (device : OutputDevice) (signal : string)
  : option (outcome unit) :=
  if String.eqb signal "printJobChanged" then printJobChanged device
  else if String.eqb signal "printProgressChanged" then printProgressChanged device
  else if String.eqb signal "connectionStateChanged" then connectionStateChanged device
  else None.

Definition is_warning (effect : binding_effect) : bool :=
  match effect with
  | CouldNotConnect _ => true
  | Connected _ _ _ => false
  end.

(** ** Facts about rounding *)


Lemma pow2_pos (k : Z) : 0 <= k -> 0 < 2 ^ k.
Proof. intros; apply Z.pow_pos_nonneg; lia. Qed.

Lemma pow2_split (a b : Z) : 0 <= a -> 0 <= b -> 2 ^ (a + b) = 2 ^ a * 2 ^ b.
Proof. intros; apply Z.pow_add_r; assumption. Qed.

Lemma dle_scale (m1 e1 m2 e2 mu : Z) :
  mu <= e1 -> mu <= e2 ->
  (dle m1 e1 m2 e2 <-> m1 * 2 ^ (e1 - mu) <= m2 * 2 ^ (e2 - mu)).
Proof.
  intros H1 H2. unfold dle.
  set (mn := Z.min e1 e2).
  assert (Hmn : mu <= mn) by (unfold mn; lia).
  assert (Hm1 : mn <= e1) by (unfold mn; lia).
  assert (Hm2 : mn <= e2) by (unfold mn; lia).
  replace (e1 - mu) with ((e1 - mn) + (mn - mu)) by lia.
  replace (e2 - mu) with ((e2 - mn) + (mn - mu)) by lia.
  rewrite !pow2_split by lia.
  pose proof (pow2_pos (mn - mu) ltac:(lia)) as Hp.
  rewrite !Z.mul_assoc.
  split; intros H.
  - apply Z.mul_le_mono_nonneg_r; lia.
  - apply Z.mul_le_mono_pos_r in H; lia.
Qed.

Lemma dle_scale_1 (m1 e1 m2 e2 mu : Z) :
  mu <= e1 -> mu <= e2 ->
  dle m1 e1 m2 e2 -> m1 * 2 ^ (e1 - mu) <= m2 * 2 ^ (e2 - mu).
Proof. intros H1 H2. apply dle_scale; assumption. Qed.

Lemma dle_scale_2 (m1 e1 m2 e2 mu : Z) :
  mu <= e1 -> mu <= e2 ->
  m1 * 2 ^ (e1 - mu) <= m2 * 2 ^ (e2 - mu) -> dle m1 e1 m2 e2.
Proof. intros H1 H2. apply dle_scale; assumption. Qed.

Lemma digits2_pos_size (p : positive) : digits2_pos p = Pos.size p.
Proof. induction p; simpl; congruence. Qed.

Lemma digits2_upper (p : positive) : Zpos p < 2 ^ Zpos (digits2_pos p).
Proof.
  rewrite digits2_pos_size.
  pose proof (Pos.size_gt p) as H.
  rewrite <- Pos2Z.inj_pow. lia.
Qed.

Lemma digits2_lower (p : positive) : 2 ^ (Zpos (digits2_pos p) - 1) <= Zpos p.
Proof.
  rewrite digits2_pos_size.
  pose proof (Pos.size_le p) as H.
  assert (H' : 2 ^ Zpos (Pos.size p) <= 2 * Zpos p).
  { rewrite <- Pos2Z.inj_pow. lia. }
  replace (Zpos (Pos.size p)) with (1 + (Zpos (Pos.size p) - 1)) in H' by lia.
  rewrite pow2_split in H' by lia. change (2 ^ 1) with 2 in H'. lia.
Qed.

Lemma Zdigits2_lower (m : Z) : 0 < m -> 2 ^ (Zdigits2 m - 1) <= m.
Proof. destruct m; try lia. intros _. apply digits2_lower. Qed.

Lemma Zdigits2_upper (m : Z) : 0 <= m -> m < 2 ^ Zdigits2 m.
Proof. destruct m; try lia; intros _. - simpl; lia. - apply digits2_upper. Qed.

Lemma fexp_mono (a b : Z) : a <= b -> fexp prec emax a <= fexp prec emax b.
Proof. unfold fexp; lia. Qed.


Lemma shr_1_fields (m : Z) (r s : bool) :
  0 <= m ->
  shr_1 (Build_shr_record m r s) = Build_shr_record (Z.div2 m) (Z.odd m) (r || s).
Proof.
  intros Hm. destruct m as [|[q|q|]|q]; try reflexivity; lia.
Qed.

Lemma shr_1_inv (M0 k : Z) (mrs : shr_record) :
  0 <= M0 -> 0 <= k -> shr_inv M0 k mrs -> shr_inv M0 (k + 1) (shr_1 mrs).
Proof.
  intros HM Hk [Hm Hex]. destruct mrs as [m r s]. simpl in Hm, Hex.
  pose proof (pow2_pos k Hk) as Hp.
  assert (Hm0 : 0 <= m) by (subst m; apply Z.div_pos; lia).
  rewrite shr_1_fields by assumption.
  assert (Hpow : 2 ^ (k + 1) = 2 ^ k * 2) by (rewrite pow2_split by lia; reflexivity).
  split; simpl.
  - rewrite Z.div2_div, Hm, Hpow, Z.div_div by lia. reflexivity.
  - intros Hz. rewrite Hpow in Hz.
    apply Zmod_divides in Hz; [|lia]. destruct Hz as [c Hc].
    assert (Hk0 : M0 mod 2 ^ k = 0).
    { apply Zmod_divides; [lia|]. exists (2 * c). lia. }
    destruct (Hex Hk0) as [-> ->].
    assert (Hmc : m = 2 * c).
    { subst m. rewrite Hc. replace (2 ^ k * 2 * c) with ((2 * c) * 2 ^ k) by lia.
      apply Z.div_mul. lia. }
    split; [|reflexivity].
    rewrite Hmc, Z.odd_mul. reflexivity.
Qed.

Lemma iter_shr_1_inv (M0 : Z) (n : positive) :
  0 <= M0 ->
  forall k mrs, 0 <= k -> shr_inv M0 k mrs ->
  shr_inv M0 (k + Zpos n) (iter_pos shr_1 n mrs).
Proof.
  intros HM. induction n as [n IH|n IH|]; intros k mrs Hk Hinv; simpl iter_pos.
  - replace (k + Zpos n~1) with (((k + 1) + Zpos n) + Zpos n) by lia.
    apply IH; [lia|]. apply IH; [lia|]. apply shr_1_inv; assumption.
  - replace (k + Zpos n~0) with ((k + Zpos n) + Zpos n) by lia.
    apply IH; [lia|]. apply IH; assumption.
  - apply shr_1_inv; assumption.
Qed.

Lemma shr_inv_start (M0 : Z) : shr_inv M0 0 (Build_shr_record M0 false false).
Proof.
  split; simpl.
  - rewrite Z.div_1_r. reflexivity.
  - intros _. split; reflexivity.
Qed.

Lemma shr_exact_spec (M0 e n : Z) :
  0 <= M0 ->
  exists mrs,
    shr (Build_shr_record M0 false false) e n = (mrs, e + Z.max n 0) /\
    shr_inv M0 (Z.max n 0) mrs.
Proof.
  intros HM. destruct n as [|p|p]; simpl shr.
  - exists (Build_shr_record M0 false false). rewrite Z.add_0_r. split; [reflexivity|apply shr_inv_start].
  - exists (iter_pos shr_1 p (Build_shr_record M0 false false)). split.
    + f_equal.
    + change (Z.max (Zpos p) 0) with (0 + Zpos p).
      apply iter_shr_1_inv; [assumption|lia|apply shr_inv_start].
  - exists (Build_shr_record M0 false false). rewrite Z.add_0_r. split; [reflexivity|apply shr_inv_start].
Qed.
Lemma rne_bounds (mrs : shr_record) :
  let m1 := round_nearest_even (shr_m mrs) (loc_of_shr_record mrs) in
  shr_m mrs <= m1 <= shr_m mrs + 1 /\
  (shr_r mrs = false -> shr_s mrs = false -> m1 = shr_m mrs).
Proof.
  destruct mrs as [m [|] [|]]; simpl; try destruct (Z.even m); split; try lia; congruence.
Qed.

Lemma shr_fexp_exact_spec (m1 e1 : Z) :
  0 <= m1 ->
  exists mrs e2,
    shr_fexp prec emax m1 e1 loc_Exact = (mrs, e2) /\
    e1 <= e2 /\ shr_inv m1 (e2 - e1) mrs /\
    (e2 = e1 \/ e2 = fexp prec emax (Zdigits2 m1 + e1)).
Proof.
  intros Hm. unfold shr_fexp. simpl shr_record_of_loc.
  set (n := fexp prec emax (Zdigits2 m1 + e1) - e1).
  destruct (shr_exact_spec m1 e1 n Hm) as [mrs [Hs Hinv]].
  exists mrs, (e1 + Z.max n 0). split; [exact Hs|].
  split; [lia|]. split.
  - replace (e1 + Z.max n 0 - e1) with (Z.max n 0) by lia. exact Hinv.
  - unfold n. lia.
Qed.

Lemma digits_sum_le (m1 e1 m2 e2 : Z) :
  0 < m1 -> 0 <= m2 -> dle m1 e1 m2 e2 ->
  Zdigits2 m1 + e1 <= Zdigits2 m2 + e2.
Proof.
  intros H1 H2 Hle.
  destruct (Z_le_gt_dec (Zdigits2 m1 + e1) (Zdigits2 m2 + e2)) as [|Hgt]; [assumption|exfalso].
  set (mu := Z.min e1 e2).
  apply (dle_scale_1 m1 e1 m2 e2 mu) in Hle; [|unfold mu; lia|unfold mu; lia].
  pose proof (Zdigits2_lower m1 H1) as Hl.
  pose proof (Zdigits2_upper m2 H2) as Hu.
  assert (Hd1 : 0 < Zdigits2 m1) by (destruct m1; simpl; lia).
  assert (Hd2 : 0 <= Zdigits2 m2) by (destruct m2; simpl; lia).
  pose proof (pow2_pos (e1 - mu) ltac:(unfold mu; lia)) as Hp1.
  pose proof (pow2_pos (e2 - mu) ltac:(unfold mu; lia)) as Hp2.
  assert (Ha : 2 ^ (Zdigits2 m1 - 1 + (e1 - mu)) <= m1 * 2 ^ (e1 - mu)).
  { rewrite pow2_split by (unfold mu; lia). apply Z.mul_le_mono_nonneg_r; lia. }
  assert (Hb : m2 * 2 ^ (e2 - mu) < 2 ^ (Zdigits2 m2 + (e2 - mu))).
  { rewrite pow2_split by (unfold mu; lia). apply Z.mul_lt_mono_pos_r; lia. }
  assert (Hc : 2 ^ (Zdigits2 m2 + (e2 - mu)) <= 2 ^ (Zdigits2 m1 - 1 + (e1 - mu))).
  { apply Z.pow_le_mono_r; lia. }
  lia.
Qed.

Lemma div_pow2_scale_le (m j : Z) : 0 <= m -> 0 <= j -> m / 2 ^ j * 2 ^ j <= m.
Proof.
  intros Hm Hj. pose proof (pow2_pos j Hj) as Hp.
  pose proof (Z.mul_div_le m (2 ^ j) Hp). lia.
Qed.

Lemma round_aux_le (sx : bool) (M b : positive) (E eb : Z) :
  E <= emax - prec -> eb <= emax - prec ->
  fexp prec emax (Zpos (digits2_pos b) + eb) <= eb ->
  dle (Zpos M) E (Zpos b) eb ->
  match binary_round_aux prec emax sx (Zpos M) E loc_Exact with
  | S754_zero s => s = sx
  | S754_finite s m e => s = sx /\ dle (Zpos m) e (Zpos b) eb
  | _ => False
  end.
Proof.
  intros HE Heb Hrep Hle.
  unfold binary_round_aux.
  destruct (shr_fexp_exact_spec (Zpos M) E ltac:(lia)) as [mrs1 [e1 [Hs1 [He1 [Hinv1 Hcase1]]]]].
  rewrite Hs1.
  pose proof (digits_sum_le (Zpos M) E (Zpos b) eb ltac:(lia) ltac:(lia) Hle) as Hdig.
  change (Zdigits2 (Zpos b)) with (Zpos (digits2_pos b)) in Hdig.
  assert (He1b : e1 <= eb \/ e1 = E).
  { destruct Hcase1 as [->| ->]; [right; reflexivity|left].
    etransitivity; [apply fexp_mono; exact Hdig|exact Hrep]. }
  set (m1 := round_nearest_even (shr_m mrs1) (loc_of_shr_record mrs1)).
  destruct (rne_bounds mrs1) as [Hb1 Hex1]. fold m1 in Hb1, Hex1.
  destruct Hinv1 as [Hm1 Hz1].
  assert (Hm1pos : 0 <= shr_m mrs1).
  { rewrite Hm1. apply Z.div_pos; [lia|apply pow2_pos; lia]. }
  (* the rounded mantissa stays below the bound *)
  assert (Hle1 : dle m1 e1 (Zpos b) eb).
  { destruct (Z.eq_dec e1 E) as [HeqE|HneE].
    - assert (Hm1M : m1 = Zpos M).
      { rewrite HeqE, Z.sub_diag in Hm1, Hz1. simpl in Hm1, Hz1.
        rewrite Z.div_1_r in Hm1. rewrite Z.mod_1_r in Hz1.
        destruct (Hz1 eq_refl) as [Hr Hs]. rewrite (Hex1 Hr Hs). exact Hm1. }
      rewrite Hm1M, HeqE. exact Hle.
    - assert (Heb1 : e1 <= eb) by (destruct He1b; [assumption|contradiction]).
      apply (dle_scale_1 _ _ _ _ E) in Hle; [|lia|lia].
      rewrite Z.sub_diag, Z.mul_1_r in Hle.
      apply (dle_scale_2 _ _ _ _ e1); [lia|lia|].
      rewrite Z.sub_diag, Z.mul_1_r.
      set (G := Zpos b * 2 ^ (eb - e1)).
      pose proof (pow2_pos (e1 - E) ltac:(lia)) as Hp.
      assert (HMG : Zpos M <= G * 2 ^ (e1 - E)).
      { unfold G. rewrite <- Z.mul_assoc, <- pow2_split by lia.
        replace (eb - e1 + (e1 - E)) with (eb - E) by lia. exact Hle. }
      assert (Hq : shr_m mrs1 <= G).
      { rewrite Hm1. apply Z.div_le_upper_bound; lia. }
      destruct (Z.eq_dec (shr_m mrs1) G) as [HeqG|HneG]; [|lia].
      assert (Hexact : Zpos M mod 2 ^ (e1 - E) = 0).
      { pose proof (Z.div_mod (Zpos M) (2 ^ (e1 - E)) ltac:(lia)) as Hdm.
        pose proof (Z.mod_pos_bound (Zpos M) (2 ^ (e1 - E)) Hp) as Hmb.
        rewrite <- Hm1, HeqG in Hdm. lia. }
      destruct (Hz1 Hexact) as [Hr Hs]. rewrite (Hex1 Hr Hs). lia. }
  assert (Hm1nn : 0 <= m1) by lia.
  destruct (shr_fexp_exact_spec m1 e1 Hm1nn) as [mrs2 [e2 [Hs2 [He2 [[Hm2 _] Hcase2]]]]].
  rewrite Hs2.
  assert (Hm2nn : 0 <= shr_m mrs2).
  { rewrite Hm2. apply Z.div_pos; [lia|apply pow2_pos; lia]. }
  assert (Hle2 : dle (shr_m mrs2) e2 (Zpos b) eb).
  { set (mu := Z.min e1 eb).
    apply (dle_scale_1 _ _ _ _ mu) in Hle1; [|unfold mu; lia|unfold mu; lia].
    apply (dle_scale_2 _ _ _ _ mu); [unfold mu; lia|unfold mu; lia|].
    replace (e2 - mu) with ((e2 - e1) + (e1 - mu)) by lia.
    rewrite pow2_split by (unfold mu; lia).
    rewrite Z.mul_assoc, Hm2.
    pose proof (div_pow2_scale_le m1 (e2 - e1) Hm1nn ltac:(lia)) as Hd.
    pose proof (pow2_pos (e1 - mu) ltac:(unfold mu; lia)) as Hp.
    etransitivity; [|exact Hle1].
    apply Z.mul_le_mono_nonneg_r; lia. }
  destruct (shr_m mrs2) as [|m2|m2] eqn:Hsm; [reflexivity| |lia].
  assert (He2max : e2 <= emax - prec).
  { destruct Hcase2 as [He2e|He2e].
    - destruct He1b as [He1le|He1E]; lia.
    - assert (Hm1p : 0 < m1).
      { destruct (Z.eq_dec m1 0) as [Hz|]; [|lia].
        rewrite Hz, Z.div_0_l in Hm2; [lia|]. pose proof (pow2_pos (e2 - e1) ltac:(lia)); lia. }
      pose proof (digits_sum_le m1 e1 (Zpos b) eb Hm1p ltac:(lia) Hle1) as Hdig1.
      change (Zdigits2 (Zpos b)) with (Zpos (digits2_pos b)) in Hdig1.
      pose proof (fexp_mono _ _ Hdig1). lia. }
  apply Z.leb_le in He2max. rewrite He2max. split; [reflexivity|exact Hle2].
Qed.

(** ** From rounded products to percentages *)

Lemma valid_finite_bounds (s : bool) (m : positive) (e : Z) :
  valid (S754_finite s m e) = true ->
  Zpos m < 2 ^ 53 /\ -1074 <= e <= 971.
Proof.
  unfold valid, valid_binary, bounded, canonical_mantissa, fexp, emin, prec, emax.
  intros H. apply andb_true_iff in H. destruct H as [Hc He].
  apply Z.eqb_eq in Hc. apply Z.leb_le in He.
  pose proof (digits2_upper m) as Hu.
  assert (Hd : Zpos (digits2_pos m) <= 53) by lia.
  pose proof (Z.pow_le_mono_r 2 _ _ ltac:(lia) Hd).
  lia.
Qed.

Lemma shiftl_below_one (m : positive) (e : Z) :
  dle (Zpos m) e (2 ^ 53 - 1) (-53) -> Z.shiftl (Zpos m) e = 0.
Proof.
  intros H.
  destruct (Z_le_gt_dec (-53) e) as [He|He].
  - apply (dle_scale_1 _ _ _ _ (-53)) in H; [|lia|lia].
    replace (-53 - -53) with 0 in H by lia. rewrite Z.pow_0_r, Z.mul_1_r in H.
    destruct (Z_le_gt_dec 0 e) as [He0|He0].
    + exfalso.
      replace (e - -53) with (e + 53) in H by lia.
      rewrite pow2_split in H by lia.
      pose proof (pow2_pos e He0). nia.
    + rewrite Z.shiftl_div_pow2 by lia.
      apply Z.div_small. split; [lia|].
      pose proof (pow2_pos (e - -53) ltac:(lia)) as Hp.
      assert (Hs : 2 ^ (- e) * 2 ^ (e - -53) = 2 ^ 53).
      { rewrite <- pow2_split by lia. f_equal. lia. }
      pose proof (pow2_pos (- e) ltac:(lia)). nia.
  - apply (dle_scale_1 _ _ _ _ e) in H; [|lia|lia].
    rewrite Z.sub_diag, Z.pow_0_r, Z.mul_1_r in H.
    rewrite Z.shiftl_div_pow2 by lia.
    apply Z.div_small. split; [lia|].
    assert (Hs : 2 ^ (- e) = 2 ^ 53 * 2 ^ (-53 - e)).
    { rewrite <- pow2_split by lia. f_equal. lia. }
    pose proof (pow2_pos (-53 - e) ltac:(lia)). nia.
Qed.

Lemma shiftl_at_most_100 (m : positive) (e : Z) :
  dle (Zpos m) e 100 0 -> 0 <= Z.shiftl (Zpos m) e <= 100.
Proof.
  intros H.
  destruct (Z_le_gt_dec 0 e) as [He|He].
  - apply (dle_scale_1 _ _ _ _ 0) in H; [|lia|lia].
    rewrite !Z.sub_0_r, Z.pow_0_r, Z.mul_1_r in H.
    rewrite Z.shiftl_mul_pow2 by lia.
    pose proof (pow2_pos e He). nia.
  - apply (dle_scale_1 _ _ _ _ e) in H; [|lia|lia].
    rewrite Z.sub_diag, Z.pow_0_r, Z.mul_1_r, Z.sub_0_l in H.
    rewrite Z.shiftl_div_pow2 by lia.
    pose proof (pow2_pos (- e) ltac:(lia)) as Hp.
    split.
    + apply Z.div_pos; lia.
    + apply Z.div_le_upper_bound; lia.
Qed.

(** The sign of a rounded number is the sign that was asked for. *)
Lemma round_aux_sign (sx : bool) (mx ex : Z) (lx : location) :
  match binary_round_aux prec emax sx mx ex lx with
  | S754_zero s | S754_infinity s | S754_finite s _ _ => s = sx
  | S754_nan => True
  end.
Proof.
  unfold binary_round_aux.
  destruct (shr_fexp prec emax mx ex lx) as [mrs1 e1].
  destruct (shr_fexp prec emax _ e1 loc_Exact) as [mrs2 e2].
  destruct (shr_m mrs2); [reflexivity| |exact I].
  destruct (e2 <=? emax - prec); reflexivity.
Qed.

Lemma mul100_of_positive (m : positive) (e : Z) :
  fmul (S754_finite false m e) c100 =
  binary_round_aux prec emax false (Zpos (m * 7036874417766400)) (e + -46) loc_Exact.
Proof. cbv [fmul SFmul c100 xorb]. reflexivity. Qed.

Lemma flt_finite_pos (m1 m2 : positive) (e1 e2 : Z) :
  flt (S754_finite false m1 e1) (S754_finite false m2 e2) = true <->
  e1 < e2 \/ (e1 = e2 /\ Zpos m1 < Zpos m2).
Proof.
  unfold flt, SFltb, SFcompare.
  change (Pos.compare_cont Eq m1 m2) with (m1 ?= m2)%positive.
  destruct (Z.compare_spec e1 e2) as [He|He|He];
    [destruct (Pos.compare_spec m1 m2) as [Hm|Hm|Hm]| |];
    split; intros H; try discriminate; try reflexivity; try lia.
Qed.

Lemma fle_finite_pos (m1 m2 : positive) (e1 e2 : Z) :
  fle (S754_finite false m1 e1) (S754_finite false m2 e2) = true <->
  e1 < e2 \/ (e1 = e2 /\ Zpos m1 <= Zpos m2).
Proof.
  unfold fle, SFleb, SFcompare.
  change (Pos.compare_cont Eq m1 m2) with (m1 ?= m2)%positive.
  destruct (Z.compare_spec e1 e2) as [He|He|He];
    [destruct (Pos.compare_spec m1 m2) as [Hm|Hm|Hm]| |];
    split; intros H; try discriminate; try reflexivity; try lia.
Qed.

(** A positive double below the double [0.01] has a product with [100]
    that rounds to a double below [1]. *)
Lemma percent_below_c001 (m : positive) (e : Z) :
  valid (S754_finite false m e) = true ->
  flt (S754_finite false m e) c001 = true ->
  py_int (fmul (S754_finite false m e) c100) = Return 0.
Proof.
  intros Hv Hlt.
  destruct (valid_finite_bounds _ _ _ Hv) as [Hm He].
  assert (Hcmp : e < -59 \/ (e = -59 /\ Zpos m < 5764607523034235)).
  { apply flt_finite_pos in Hlt. exact Hlt. }
  rewrite mul100_of_positive.
  assert (Hle : dle (Zpos (m * 7036874417766400)) (e + -46) (Zpos 9007199254740991) (-53)).
  { apply (dle_scale_2 _ _ _ _ (e + -46)); [lia|lia|].
    rewrite Z.sub_diag, Z.pow_0_r, Z.mul_1_r, Pos2Z.inj_mul.
    destruct Hcmp as [Hlo|[-> Hmm]].
    - replace (-53 - (e + -46)) with (53 + (-60 - e)) by lia.
      rewrite pow2_split by lia.
      pose proof (pow2_pos (-60 - e) ltac:(lia)) as Hp.
      change (2 ^ 53) with 9007199254740992 in *. nia.
    - change (2 ^ (-53 - (-59 + -46))) with 4503599627370496. lia. }
  pose proof (round_aux_le false (m * 7036874417766400) 9007199254740991 (e + -46) (-53)
                ltac:(unfold emax, prec; lia) ltac:(unfold emax, prec; lia)
                ltac:(vm_compute; discriminate) Hle) as Hr.
  destruct (binary_round_aux prec emax false (Zpos (m * 7036874417766400)) (e + -46) loc_Exact)
    as [s| | |s m' e']; try contradiction.
  - reflexivity.
  - destruct Hr as [-> Hd]. simpl.
    rewrite (shiftl_below_one m' e'); [reflexivity|exact Hd].
Qed.

(** A negative double has a product with [100] that is not positive. *)
Lemma percent_of_negative (m : positive) (e : Z) (k : Z) :
  py_int (fmul (S754_finite true m e) c100) = Return k -> k <= 0.
Proof.
  intros H.
  assert (Hs : fmul (S754_finite true m e) c100 =
               binary_round_aux prec emax true (Zpos (m * 7036874417766400)) (e + -46) loc_Exact)
    by (cbv [fmul SFmul c100 xorb]; reflexivity).
  rewrite Hs in H.
  pose proof (round_aux_sign true (Zpos (m * 7036874417766400)) (e + -46) loc_Exact) as Hr.
  destruct (binary_round_aux prec emax true (Zpos (m * 7036874417766400)) (e + -46) loc_Exact)
    as [s|s| |s m' e']; simpl in H; try discriminate.
  - injection H as <-. lia.
  - subst s. injection H as <-. simpl.
    assert (0 <= Z.shiftl (Zpos m') e') by (apply Z.shiftl_nonneg; lia). lia.
Qed.

(** The heart of the time estimate: a percentage of at least one is only
    computed from a progress of at least the double [0.01]. *)
Lemma percent_positive_progress (p : float) (k : Z) :
  valid p = true ->
  py_int (fmul p c100) = Return k -> 1 <= k ->
  flt p c001 = false /\ fle c001 p = true /\ flt zero p = true.
Proof.
  intros Hv Hk Hpos.
  destruct p as [s|s| |s m e].
  - destruct s; simpl in Hk; injection Hk as <-; lia.
  - destruct s; simpl in Hk; discriminate.
  - simpl in Hk; discriminate.
  - destruct s.
    + apply percent_of_negative in Hk. lia.
    + destruct (flt (S754_finite false m e) c001) eqn:Hlt.
      * rewrite (percent_below_c001 m e Hv Hlt) in Hk. injection Hk as <-. lia.
      * split; [reflexivity|]. split; [|reflexivity].
        apply fle_finite_pos.
        destruct (Z_lt_ge_dec (-59) e) as [Hgt|Hge]; [left; exact Hgt|].
        destruct (Z_lt_ge_dec e (-59)) as [Hl|Hg].
        { assert (Hc : flt (S754_finite false m e) c001 = true)
            by (apply flt_finite_pos; left; exact Hl).
          rewrite Hc in Hlt. discriminate. }
        right. split; [lia|].
        destruct (Z_lt_ge_dec (Zpos m) 5764607523034235) as [Hml|Hmg]; [|lia].
        assert (Hc : flt (S754_finite false m e) c001 = true)
          by (apply flt_finite_pos; right; split; [lia|exact Hml]).
        rewrite Hc in Hlt. discriminate.
Qed.

(** On [[0, 1]] the product with [100] is a number between 0 and 100, and
    truncating it is taking its floor. *)
Lemma percent_unit_range (p : float) :
  valid p = true -> fle zero p = true -> fle p one = true ->
  exists k, py_int (fmul p c100) = Return k /\
            py_floor (fmul p c100) = Return k /\ 0 <= k <= 100.
Proof.
  intros Hv H0 H1.
  destruct p as [s|s| |s m e].
  - exists 0. destruct s; repeat split; try reflexivity; lia.
  - destruct s; discriminate.
  - discriminate.
  - destruct s; [discriminate|].
    destruct (valid_finite_bounds _ _ _ Hv) as [Hm He].
    assert (Hcmp : e < -52 \/ (e = -52 /\ Zpos m <= 4503599627370496)).
    { apply fle_finite_pos in H1. exact H1. }
    rewrite mul100_of_positive.
    assert (Hle : dle (Zpos (m * 7036874417766400)) (e + -46) (Zpos 100) 0).
    { apply (dle_scale_2 _ _ _ _ (e + -46)); [lia|lia|].
      rewrite Z.sub_diag, Z.pow_0_r, Z.mul_1_r, Pos2Z.inj_mul.
      destruct Hcmp as [Hlo|[-> Hmm]].
      - replace (0 - (e + -46)) with (99 + (-53 - e)) by lia.
        rewrite pow2_split by lia.
        pose proof (pow2_pos (-53 - e) ltac:(lia)) as Hp.
        change (2 ^ 53) with 9007199254740992 in *.
        change (2 ^ 99) with 633825300114114700748351602688. nia.
      - change (2 ^ (0 - (-52 + -46))) with 316912650057057350374175801344. lia. }
    pose proof (round_aux_le false (m * 7036874417766400) 100 (e + -46) 0
                  ltac:(unfold emax, prec; lia) ltac:(unfold emax, prec; lia)
                  ltac:(vm_compute; discriminate) Hle) as Hr.
    destruct (binary_round_aux prec emax false (Zpos (m * 7036874417766400)) (e + -46) loc_Exact)
      as [s| | |s m' e']; try contradiction.
    + exists 0. repeat split; try reflexivity; lia.
    + destruct Hr as [-> Hd]. exists (Z.shiftl (Zpos m') e').
      repeat split; try reflexivity; apply shiftl_at_most_100; exact Hd.
Qed.

(** ** The monad and the methods, step by step *)

Lemma preserves_ret {A : Type} (P : World -> Prop) (a : A) : preserves P (ret a).
Proof. intros w H. exact H. Qed.

Lemma preserves_lift {A : Type} (P : World -> Prop) (o : outcome A) :
  preserves P (lift o).
Proof. intros w H. exact H. Qed.

Lemma preserves_get_self {A : Type} (P : World -> Prop) (field : Plugin -> A) :
  preserves P (get_self field).
Proof. intros w H. exact H. Qed.

Lemma preserves_bind {A B : Type} (P : World -> Prop) (c : M A) (k : A -> M B) :
  preserves P c -> (forall a, preserves P (k a)) -> preserves P (bind c k).
Proof.
  intros Hc Hk w H. unfold bind.
  specialize (Hc w H). destruct (c w) as [[a|e] w1]; simpl in *.
  - apply Hk. exact Hc.
  - exact Hc.
Qed.

Lemma preserves_try_except {A : Type} (P : World -> Prop) (c : M A) (h : exn -> M A) :
  preserves P c -> (forall e, preserves P (h e)) -> preserves P (try_except c h).
Proof.
  intros Hc Hh w H. unfold try_except.
  specialize (Hc w H). destruct (c w) as [[a|e] w1]; simpl in *.
  - exact Hc.
  - apply Hh. exact Hc.
Qed.

Lemma preserves_if {A : Type} (P : World -> Prop) (b : bool) (c1 c2 : M A) :
  preserves P c1 -> preserves P c2 -> preserves P (if b then c1 else c2).
Proof. destruct b; intros; assumption. Qed.

Lemma send_update_blocked (event_type : string) (d : dict) (w : World) :
  url_unconfigured (_webhook_url (self w)) = true ->
  _send_webhook_update event_type d w =
  (Return tt, mkWorld (self w) (logged w ++ [("w", MsgNotConfiguredSkipping)])
                      (threads w) (requests w) (time_calls w)).
Proof.
  intros H. unfold _send_webhook_update, bind, get_self. rewrite H. reflexivity.
Qed.

Lemma send_update_started (event_type : string) (d : dict) (w : World) :
  url_unconfigured (_webhook_url (self w)) = false ->
  _send_webhook_update event_type d w =
  (Return tt, mkWorld (self w) (logged w)
                      (threads w ++ [event_payload event_type d])
                      (requests w) (time_calls w)).
Proof.
  intros H. unfold _send_webhook_update, bind, get_self. rewrite H. reflexivity.
Qed.

(** One run of [_send_webhook_update] is one send attempt and touches
    neither the tracker nor the network. *)
Lemma send_update_frame (event_type : string) (d : dict) (w : World) :
  fst (_send_webhook_update event_type d w) = Return tt /\
  self (snd (_send_webhook_update event_type d w)) = self w /\
  requests (snd (_send_webhook_update event_type d w)) = requests w /\
  time_calls (snd (_send_webhook_update event_type d w)) = time_calls w /\
  send_attempts (snd (_send_webhook_update event_type d w)) = S (send_attempts w).
Proof.
  destruct (url_unconfigured (_webhook_url (self w))) eqn:Hu.
  - rewrite (send_update_blocked _ _ _ Hu). unfold send_attempts. simpl.
    rewrite filter_app, length_app. simpl. repeat split; lia.
  - rewrite (send_update_started _ _ _ Hu). unfold send_attempts. simpl.
    rewrite length_app. simpl. repeat split; lia.
Qed.

Lemma job_ended_run (w : World) :
  _on_print_job_changed None w =
  _send_webhook_update "print_ended"
    [("message", PStr "Print job ended or cancelled");
     ("timestamp", PFloat (time_time (time_calls w)))]
    (mkWorld (mkPlugin (_webhook_url (self w)) (-1) false ""
                       (_print_start_time (self w)))
             (logged w) (threads w) (requests w) (S (time_calls w))).
Proof. reflexivity. Qed.

Lemma job_started_run (j : Job) (name : string) (w : World) :
  job_name j = Return name ->
  _on_print_job_changed (Some j) w =
  _send_webhook_update "print_started"
    [("job_name", PStr name);
     ("start_time", PFloat (time_time (time_calls w)))]
    (mkWorld (mkPlugin (_webhook_url (self w)) 0 true name
                       (PFloat (time_time (time_calls w))))
             (logged w) (threads w) (requests w) (S (time_calls w))).
Proof.
  intros Hn. unfold _on_print_job_changed, bind, lift.
  cbn [set_is_printing modify_self]. rewrite Hn. reflexivity.
Qed.

(** A raising [getName()] ends the call after the first assignment. *)
Lemma job_start_cut (j : Job) (e : exn) (w : World) :
  job_name j = Raise e ->
  _on_print_job_changed (Some j) w =
  (Raise e,
   mkWorld (mkPlugin (_webhook_url (self w)) (_last_progress (self w)) true
                     (_current_job_name (self w)) (_print_start_time (self w)))
           (logged w) (threads w) (requests w) (time_calls w)).
Proof.
  intros Hn. unfold _on_print_job_changed, bind, lift.
  cbn [set_is_printing modify_self]. rewrite Hn. reflexivity.
Qed.

Lemma job_named_name (j : Job) :
  job_named j = true -> exists name, job_name j = Return name.
Proof.
  unfold job_named. destruct (job_name j) as [name|e]; [|discriminate].
  intros _. exists name. reflexivity.
Qed.

Lemma divisor_not_zero (p : float) : is_zero (divisor p) = false.
Proof.
  unfold divisor, flt, SFltb, zero, SFcompare.
  destruct p as [s|s| |s m e]; try destruct s; reflexivity.
Qed.

Lemma progress_idle (p : float) (w : World) :
  _is_printing (self w) = false ->
  _on_print_progress_changed p w = (Return tt, w).
Proof.
  intros H. unfold _on_print_progress_changed, bind, get_self. rewrite H. reflexivity.
Qed.

Lemma progress_raises (p : float) (e : exn) (w : World) :
  _is_printing (self w) = true ->
  py_int (fmul p c100) = Raise e ->
  _on_print_progress_changed p w = (Raise e, w).
Proof.
  intros H Hi. unfold _on_print_progress_changed, bind, get_self, lift.
  rewrite H, Hi. reflexivity.
Qed.

Lemma progress_stale (p : float) (k : Z) (w : World) :
  _is_printing (self w) = true ->
  py_int (fmul p c100) = Return k ->
  k <= _last_progress (self w) ->
  _on_print_progress_changed p w = (Return tt, w).
Proof.
  intros H Hi Hk. unfold _on_print_progress_changed, bind, get_self, lift.
  rewrite H, Hi. cbn [negb].
  assert (Hg : (k >? _last_progress (self w)) = false) by lia.
  rewrite Hg. reflexivity.
Qed.

Lemma py_sub_start (now : float) (start : pyval) :
  start = PInt 0 \/ (exists t, start = PFloat t) ->
  exists elapsed, py_sub now start = Return elapsed.
Proof.
  intros [->|[t ->]].
  - exists (fsub now (S754_zero false)). reflexivity.
  - exists (fsub now t). reflexivity.
Qed.

Lemma progress_fires (p : float) (k : Z) (elapsed : float) (w : World) :
  _is_printing (self w) = true ->
  py_int (fmul p c100) = Return k ->
  _last_progress (self w) < k ->
  py_sub (time_time (time_calls w)) (_print_start_time (self w)) = Return elapsed ->
  _on_print_progress_changed p w =
  _send_webhook_update "progress_update"
    [("job_name", PStr (_current_job_name (self w)));
     ("progress_percent", PInt k);
     ("elapsed_time_seconds", PFloat elapsed);
     ("estimated_remaining_seconds",
      PFloat (fsub (fdiv elapsed (divisor p)) elapsed));
     ("timestamp", PFloat (time_time (S (time_calls w))))]
    (mkWorld (mkPlugin (_webhook_url (self w)) k true (_current_job_name (self w))
                       (_print_start_time (self w)))
             (logged w) (threads w) (requests w) (S (S (time_calls w)))).
Proof.
  intros H Hi Hk Hs. unfold _on_print_progress_changed, bind, get_self, lift.
  rewrite H, Hi. cbn [negb].
  assert (Hg : (k >? _last_progress (self w)) = true) by lia.
  rewrite Hg.
  cbn [set_last_progress modify_self time_time_call self time_calls
       _print_start_time _current_job_name _webhook_url _is_printing].
  rewrite Hs, H. unfold py_truediv. rewrite divisor_not_zero.
  reflexivity.
Qed.

(** ** The invariant of the tracker *)

Lemma preserves_self_unchanged {A : Type} (Q : Plugin -> Prop) (c : M A) :
  (forall w, self (snd (c w)) = self w) ->
  preserves (fun w => Q (self w)) c.
Proof. intros Hc w H. rewrite Hc. exact H. Qed.

Lemma job_started_self (j : Job) (name : string) (w : World) :
  job_name j = Return name ->
  self (snd (_on_print_job_changed (Some j) w)) =
  mkPlugin (_webhook_url (self w)) 0 true name (PFloat (time_time (time_calls w))).
Proof.
  intros Hn. rewrite (job_started_run j name w Hn).
  match goal with
  | |- context [_send_webhook_update ?ev ?d ?w1] =>
      destruct (send_update_frame ev d w1) as [_ [Hs _]]; rewrite Hs
  end.
  reflexivity.
Qed.

Lemma job_ended_self (w : World) :
  self (snd (_on_print_job_changed None w)) =
  mkPlugin (_webhook_url (self w)) (-1) false "" (_print_start_time (self w)).
Proof.
  rewrite job_ended_run.
  match goal with
  | |- context [_send_webhook_update ?ev ?d ?w1] =>
      destruct (send_update_frame ev d w1) as [_ [Hs _]]; rewrite Hs
  end.
  reflexivity.
Qed.

(** Whatever the job does, the handler keeps what every state satisfies. *)
Lemma job_changed_wf (job : option Job) :
  preserves (fun w => tracker_wf (self w)) (_on_print_job_changed job).
Proof.
  intros w [Hidle [Hl Ht]]. destruct job as [j|].
  - destruct (job_name j) as [name|e] eqn:Hn.
    + rewrite (job_started_self j name w Hn).
      split; cbn; [intros H; discriminate|]. split; [lia|].
      right. exists (time_time (time_calls w)). reflexivity.
    + rewrite (job_start_cut j e w Hn).
      split; cbn; [intros H; discriminate|]. split; assumption.
  - rewrite job_ended_self.
    split; cbn; [intros _; reflexivity|]. split; [lia|exact Ht].
Qed.

(** A job end, and a job start that runs to its end, establish the
    invariant of started jobs. *)
Lemma job_changed_inv (job : option Job) :
  (forall j, job = Some j -> job_named j = true) ->
  preserves (fun w => tracker_inv (self w)) (_on_print_job_changed job).
Proof.
  intros Hnamed w _. destruct job as [j|].
  - destruct (job_named_name j (Hnamed j eq_refl)) as [name Hn].
    rewrite (job_started_self j name w Hn).
    split; cbn; intros H; [discriminate|].
    split; [lia|]. exists (time_time (time_calls w)). reflexivity.
  - rewrite job_ended_self. split; cbn; intros H; [reflexivity|discriminate].
Qed.

(** What the progress handler does to the tracker, in any state: nothing,
    or it stores a larger percentage. *)
Lemma progress_self (p : float) (w : World) :
  self (snd (_on_print_progress_changed p w)) = self w \/
  (_is_printing (self w) = true /\
   exists k, py_int (fmul p c100) = Return k /\ _last_progress (self w) < k /\
             self (snd (_on_print_progress_changed p w)) =
             mkPlugin (_webhook_url (self w)) k true (_current_job_name (self w))
                      (_print_start_time (self w))).
Proof.
  destruct (_is_printing (self w)) eqn:Hp.
  2:{ left. rewrite progress_idle by assumption. reflexivity. }
  destruct (py_int (fmul p c100)) as [k|e] eqn:Hi.
  2:{ left. rewrite (progress_raises p e) by assumption. reflexivity. }
  destruct (Z_le_gt_dec k (_last_progress (self w))) as [Hk|Hk].
  { left. rewrite (progress_stale p k) by assumption. reflexivity. }
  right. split; [reflexivity|]. exists k. split; [reflexivity|]. split; [lia|].
  unfold _on_print_progress_changed, bind, get_self, lift.
  rewrite Hp, Hi. cbn [negb].
  assert (Hg : (k >? _last_progress (self w)) = true) by lia.
  rewrite Hg.
  cbn [set_last_progress modify_self time_time_call self time_calls
       _print_start_time _current_job_name _webhook_url _is_printing].
  rewrite Hp.
  destruct (py_sub (time_time (time_calls w)) (_print_start_time (self w))) as [el|e].
  2:{ reflexivity. }
  unfold py_truediv. rewrite divisor_not_zero.
  match goal with
  | |- self (snd (_send_webhook_update ?ev ?d ?w1)) = _ =>
      destruct (send_update_frame ev d w1) as [_ [Hs _]]; rewrite Hs
  end.
  reflexivity.
Qed.

Lemma progress_inv (p : float) :
  preserves (fun w => tracker_inv (self w)) (_on_print_progress_changed p).
Proof.
  intros w [Hidle Hprint].
  destruct (progress_self p w) as [Hs|[Hp [k [_ [Hk Hs]]]]]; rewrite Hs.
  - split; assumption.
  - destruct (Hprint Hp) as [Hl Ht].
    split; cbn; intros H; [discriminate|]. split; [lia|exact Ht].
Qed.

Lemma progress_wf (p : float) :
  preserves (fun w => tracker_wf (self w)) (_on_print_progress_changed p).
Proof.
  intros w [Hidle [Hl Ht]].
  destruct (progress_self p w) as [Hs|[Hp [k [_ [Hk Hs]]]]]; rewrite Hs.
  - split; [exact Hidle|]. split; assumption.
  - split; cbn; [intros H; discriminate|]. split; [lia|exact Ht].
Qed.

Lemma check_device_wf (device : Device) :
  preserves (fun w => tracker_wf (self w)) (check_device device).
Proof.
  unfold check_device.
  destruct (activePrintJob device) as [[job|]|].
  - apply preserves_bind; [apply preserves_get_self|intros printing].
    apply preserves_bind.
    + apply preserves_if; [apply job_changed_wf|apply preserves_ret].
    + intros _.
      destruct (match getProgress job with
                | Some v => v
                | None => match printProgress device with
                          | Some v => v
                          | None => Some zero
                          end
                end) as [p|]; [apply progress_wf|apply preserves_ret].
  - apply preserves_bind; [apply preserves_get_self|intros printing].
    apply preserves_if; [apply job_changed_wf|apply preserves_ret].
  - apply preserves_ret.
Qed.

Lemma check_devices_wf (output_devices : list Device) :
  preserves (fun w => tracker_wf (self w)) (check_devices output_devices).
Proof.
  induction output_devices as [|device rest IH]; simpl.
  - apply preserves_ret.
  - apply preserves_bind; [apply check_device_wf|intros _; exact IH].
Qed.

Lemma Logger_log_self (level : string) (msg : log_msg) (w : World) :
  self (snd (Logger_log level msg w)) = self w.
Proof. reflexivity. Qed.

Lemma check_print_progress_wf (output_devices : list Device) :
  preserves (fun w => tracker_wf (self w)) (_check_print_progress output_devices).
Proof.
  unfold _check_print_progress.
  apply preserves_bind; [apply preserves_get_self|intros url].
  apply preserves_if; [apply preserves_ret|].
  apply preserves_try_except; [apply check_devices_wf|intros e].
  apply preserves_self_unchanged. intros w. reflexivity.
Qed.

(** A thread that runs [_send_webhook_request] returns normally, writes
    one line to the log and issues at most one HTTP request. *)
Lemma send_request_run (payload : pyval) (w : World) :
  exists entry reqs,
    _send_webhook_request payload w =
    (Return tt, mkWorld (self w) (logged w ++ [entry]) (threads w)
                        (requests w ++ reqs) (time_calls w)) /\
    (List.length reqs <= 1)%nat.
Proof.
  unfold _send_webhook_request, try_except, bind, lift, get_self, urllib_Request, urlopen.
  destruct (json_dumps payload) as [body|e].
  2:{ exists
        (match e with
         | HTTPError code reason => ("e", MsgHTTPError code reason)
         | URLError reason => ("e", MsgURLError reason)
         | _ => ("e", MsgUnexpectedError e)
         end), [].
      rewrite app_nil_r. split; [destruct e; reflexivity|simpl; lia]. }
  destruct (url_accepted (_webhook_url (self w))).
  2:{ exists ("e", MsgUnexpectedError (ValueError "unknown url type")), [].
      rewrite app_nil_r. split; [reflexivity|simpl; lia]. }
  cbn [self logged threads requests time_calls].
  destruct (urlopen_result (List.length (requests w))
              (mkRequest (_webhook_url (self w)) body request_headers) 10) as [code|e].
  2:{ exists
        (match e with
         | HTTPError code reason => ("e", MsgHTTPError code reason)
         | URLError reason => ("e", MsgURLError reason)
         | _ => ("e", MsgUnexpectedError e)
         end), [mkRequest (_webhook_url (self w)) body request_headers].
      split; [destruct e; reflexivity|simpl; lia]. }
  destruct (code =? 200).
  - destruct (py_getitem payload "event_type") as [et|e].
    + exists ("d", MsgSentSuccessfully et),
        [mkRequest (_webhook_url (self w)) body request_headers].
      split; [reflexivity|simpl; lia].
    + exists
        (match e with
         | HTTPError code' reason => ("e", MsgHTTPError code' reason)
         | URLError reason => ("e", MsgURLError reason)
         | _ => ("e", MsgUnexpectedError e)
         end), [mkRequest (_webhook_url (self w)) body request_headers].
      split; [destruct e; reflexivity|simpl; lia].
  - exists ("w", MsgReturnedStatus code),
      [mkRequest (_webhook_url (self w)) body request_headers].
    split; [reflexivity|simpl; lia].
Qed.

Lemma perform_wf (a : action) :
  preserves (fun w => tracker_wf (self w)) (perform a).
Proof.
  destruct a as [job|p|st|ds|url|n]; simpl.
  - apply job_changed_wf.
  - apply progress_wf.
  - apply preserves_self_unchanged. intros w. reflexivity.
  - apply check_print_progress_wf.
  - intros w [Hidle [Hl Ht]]. split; [exact Hidle|]. split; assumption.
  - intros w H. unfold bind, take_thread.
    destruct (nth_error (threads w) n) as [payload|]; [|exact H].
    match goal with
    | |- context [_send_webhook_request payload ?w1] =>
        destruct (send_request_run payload w1) as [entry [reqs [Hr _]]]; rewrite Hr
    end.
    exact H.
Qed.

Lemma init_world_wf : tracker_wf (self init_world).
Proof. split; cbn; [intros _; reflexivity|]. split; [lia|left; reflexivity]. Qed.

Lemma reachable_wf (w : World) : reachable w -> tracker_wf (self w).
Proof.
  induction 1 as [|a w Hr IH].
  - exact init_world_wf.
  - apply (perform_wf a w IH).
Qed.

(** ** The tracker as a state machine *)

Lemma exec_progress_self (p : float) (w : World) :
  self (exec (PrintProgressChanged p) w) = self w \/
  (_is_printing (self w) = true /\
   exists k, py_int (fmul p c100) = Return k /\ _last_progress (self w) < k /\
             self (exec (PrintProgressChanged p) w) =
             mkPlugin (_webhook_url (self w)) k true (_current_job_name (self w))
                      (_print_start_time (self w))).
Proof. exact (progress_self p w). Qed.

(** C1, as the code has it: in every state the tracker can reach, by
    signals pushed by the host or found by the timer, the last reported
    percentage is exactly -1 when no job prints; a progress signal never
    lowers it and never changes whether a job prints; a job-changed signal
    with a job whose name is read sets it back to 0, also when a job already
    prints; one whose [getName()] raises leaves it as it is, with the
    tracker printing. *)
Theorem last_progress_invariant (w : World) :
  reachable w ->
  (_is_printing (self w) = false -> _last_progress (self w) = -1) /\
  (forall p : float,
      _last_progress (self w) <=
      _last_progress (self (exec (PrintProgressChanged p) w)) /\
      _is_printing (self (exec (PrintProgressChanged p) w)) =
      _is_printing (self w)) /\
  (forall (j : Job) (name : string),
      job_name j = Return name ->
      _last_progress (self (exec (PrintJobChanged (Some j)) w)) = 0 /\
      _is_printing (self (exec (PrintJobChanged (Some j)) w)) = true) /\
  (forall (j : Job) (e : exn),
      job_name j = Raise e ->
      _last_progress (self (exec (PrintJobChanged (Some j)) w)) =
      _last_progress (self w) /\
      _is_printing (self (exec (PrintJobChanged (Some j)) w)) = true).
Proof.
  intros Hr. destruct (reachable_wf w Hr) as [Hidle _].
  split; [exact Hidle|]. split; [|split].
  - intros p. destruct (exec_progress_self p w) as [Hs|[Hp [k [_ [Hk Hs]]]]];
      rewrite Hs.
    + split; [lia|reflexivity].
    + cbn. split; [lia|symmetry; exact Hp].
  - intros j name Hn. unfold exec. cbn [perform].
    rewrite (job_started_self j name w Hn). split; reflexivity.
  - intros j e Hn. unfold exec. cbn [perform].
    rewrite (job_start_cut j e w Hn). split; reflexivity.
Qed.

(** When the handler acts after a job start that ran to its end, its
    whole run is one call of [_send_webhook_update] with the
    [progress_update] data. *)
Lemma progress_event (p : float) (k : Z) (w : World) :
  tracker_inv (self w) ->
  _is_printing (self w) = true ->
  py_int (fmul p c100) = Return k ->
  _last_progress (self w) < k ->
  exists t0,
    _print_start_time (self w) = PFloat t0 /\
    _on_print_progress_changed p w =
    _send_webhook_update "progress_update"
      [("job_name", PStr (_current_job_name (self w)));
       ("progress_percent", PInt k);
       ("elapsed_time_seconds", PFloat (fsub (time_time (time_calls w)) t0));
       ("estimated_remaining_seconds",
        PFloat (fsub (fdiv (fsub (time_time (time_calls w)) t0) (divisor p))
                     (fsub (time_time (time_calls w)) t0)));
       ("timestamp", PFloat (time_time (S (time_calls w))))]
      (mkWorld (mkPlugin (_webhook_url (self w)) k true (_current_job_name (self w))
                         (PFloat t0))
               (logged w) (threads w) (requests w) (S (S (time_calls w)))).
Proof.
  intros [_ Hprint] Hp Hi Hk.
  destruct (Hprint Hp) as [_ [t0 Ht]].
  exists t0. split; [exact Ht|].
  rewrite (progress_fires p k (fsub (time_time (time_calls w)) t0) w Hp Hi Hk).
  - rewrite Ht. reflexivity.
  - rewrite Ht. reflexivity.
Qed.

(** The same in any state the tracker can be in: the elapsed time is what
    the subtraction from the clock gives. *)
Lemma progress_event_wf (p : float) (k : Z) (w : World) :
  tracker_wf (self w) ->
  _is_printing (self w) = true ->
  py_int (fmul p c100) = Return k ->
  _last_progress (self w) < k ->
  exists elapsed,
    py_sub (time_time (time_calls w)) (_print_start_time (self w)) = Return elapsed /\
    _on_print_progress_changed p w =
    _send_webhook_update "progress_update"
      [("job_name", PStr (_current_job_name (self w)));
       ("progress_percent", PInt k);
       ("elapsed_time_seconds", PFloat elapsed);
       ("estimated_remaining_seconds",
        PFloat (fsub (fdiv elapsed (divisor p)) elapsed));
       ("timestamp", PFloat (time_time (S (time_calls w))))]
      (mkWorld (mkPlugin (_webhook_url (self w)) k true (_current_job_name (self w))
                         (_print_start_time (self w)))
               (logged w) (threads w) (requests w) (S (S (time_calls w)))).
Proof.
  intros [_ [_ Ht]] Hp Hi Hk.
  destruct (py_sub_start (time_time (time_calls w)) _ Ht) as [elapsed Hsub].
  exists elapsed. split; [exact Hsub|]. apply progress_fires; assumption.
Qed.

Lemma progress_fires_effect (p : float) (k : Z) (elapsed : float) (w : World) :
  _is_printing (self w) = true ->
  py_int (fmul p c100) = Return k ->
  _last_progress (self w) < k ->
  py_sub (time_time (time_calls w)) (_print_start_time (self w)) = Return elapsed ->
  fst (_on_print_progress_changed p w) = Return tt /\
  self (exec (PrintProgressChanged p) w) =
    mkPlugin (_webhook_url (self w)) k true (_current_job_name (self w))
             (_print_start_time (self w)) /\
  send_attempts (exec (PrintProgressChanged p) w) = S (send_attempts w).
Proof.
  intros Hp Hi Hk Hsub.
  unfold exec. cbn [perform]. rewrite (progress_fires p k elapsed w Hp Hi Hk Hsub).
  match goal with
  | |- context [_send_webhook_update ?ev ?d ?w1] =>
      destruct (send_update_frame ev d w1) as [Hf [Hs [_ [_ Ha]]]]
  end.
  rewrite Hf, Hs, Ha. repeat split.
Qed.

Lemma progress_event_effect (p : float) (k : Z) (w : World) :
  tracker_inv (self w) ->
  _is_printing (self w) = true ->
  py_int (fmul p c100) = Return k ->
  _last_progress (self w) < k ->
  fst (_on_print_progress_changed p w) = Return tt /\
  self (exec (PrintProgressChanged p) w) =
    mkPlugin (_webhook_url (self w)) k true (_current_job_name (self w))
             (_print_start_time (self w)) /\
  send_attempts (exec (PrintProgressChanged p) w) = S (send_attempts w).
Proof.
  intros [_ Hprint] Hp Hi Hk.
  destruct (Hprint Hp) as [_ [t0 Ht]].
  apply (progress_fires_effect p k (fsub (time_time (time_calls w)) t0));
    try assumption.
  rewrite Ht. reflexivity.
Qed.

Lemma progress_event_effect_wf (p : float) (k : Z) (w : World) :
  tracker_wf (self w) ->
  _is_printing (self w) = true ->
  py_int (fmul p c100) = Return k ->
  _last_progress (self w) < k ->
  fst (_on_print_progress_changed p w) = Return tt /\
  self (exec (PrintProgressChanged p) w) =
    mkPlugin (_webhook_url (self w)) k true (_current_job_name (self w))
             (_print_start_time (self w)) /\
  send_attempts (exec (PrintProgressChanged p) w) = S (send_attempts w).
Proof.
  intros [_ [_ Ht]] Hp Hi Hk.
  destruct (py_sub_start (time_time (time_calls w)) _ Ht) as [elapsed Hsub].
  apply (progress_fires_effect p k elapsed); assumption.
Qed.

(** Whenever the number of send attempts changes across the progress
    handler, the handler acted: a job prints and the new percentage is
    above the last one. *)
Lemma progress_attempt_inv (p : float) (w : World) :
  send_attempts (exec (PrintProgressChanged p) w) <> send_attempts w ->
  _is_printing (self w) = true /\
  exists k, py_int (fmul p c100) = Return k /\ _last_progress (self w) < k.
Proof.
  intros Hne. unfold exec in Hne. cbn [perform] in Hne.
  destruct (_is_printing (self w)) eqn:Hp.
  2:{ rewrite progress_idle in Hne by assumption. contradiction Hne. reflexivity. }
  split; [reflexivity|].
  destruct (py_int (fmul p c100)) as [k|e] eqn:Hi.
  2:{ rewrite (progress_raises p e) in Hne by assumption. contradiction Hne. reflexivity. }
  exists k. split; [reflexivity|].
  destruct (Z_le_gt_dec k (_last_progress (self w))) as [Hk|Hk]; [|lia].
  rewrite (progress_stale p k) in Hne by assumption. contradiction Hne. reflexivity.
Qed.

(** C2: for a progress value in [[0, 1]] the handler acts (stores the
    percentage and makes one send attempt, a [progress_update]) if and only
    if a job prints and the percentage is strictly above the last one;
    otherwise it leaves the world as it is. A signal that arrives while no
    job prints is ignored whatever its value, and two values with the same
    percentage delivered one after the other make at most one attempt. *)
Theorem progress_dedup (w : World) (p : float) :
  reachable w -> valid p = true -> fle zero p = true -> fle p one = true ->
  exists percent,
    py_int (fmul p c100) = Return percent /\
    (_is_printing (self w) = true /\ _last_progress (self w) < percent ->
     fst (_on_print_progress_changed p w) = Return tt /\
     _last_progress (self (exec (PrintProgressChanged p) w)) = percent /\
     send_attempts (exec (PrintProgressChanged p) w) = S (send_attempts w) /\
     exists d w2,
       _on_print_progress_changed p w = _send_webhook_update "progress_update" d w2) /\
    (~ (_is_printing (self w) = true /\ _last_progress (self w) < percent) ->
     _on_print_progress_changed p w = (Return tt, w)) /\
    (forall q : float,
        _is_printing (self w) = false ->
        _on_print_progress_changed q w = (Return tt, w)) /\
    (forall p2 : float,
        py_int (fmul p2 c100) = Return percent ->
        (send_attempts (run [PrintProgressChanged p; PrintProgressChanged p2] w)
         <= S (send_attempts w))%nat).
Proof.
  intros Hr Hv H0 H1.
  pose proof (reachable_wf w Hr) as Hinv.
  destruct (percent_unit_range p Hv H0 H1) as [percent [Hi _]].
  exists percent. split; [exact Hi|].
  assert (Hstay : ~ (_is_printing (self w) = true /\ _last_progress (self w) < percent) ->
                  _on_print_progress_changed p w = (Return tt, w)).
  { intros Hn. destruct (_is_printing (self w)) eqn:Hp.
    - apply (progress_stale p percent); [assumption|assumption|].
      destruct (Z_le_gt_dec percent (_last_progress (self w))); [assumption|].
      exfalso. apply Hn. split; [reflexivity|lia].
    - apply progress_idle. assumption. }
  split; [|split; [exact Hstay|split]].
  - intros [Hp Hk].
    destruct (progress_event_effect_wf p percent w Hinv Hp Hi Hk) as [Hf [Hs Ha]].
    split; [exact Hf|]. split; [rewrite Hs; reflexivity|]. split; [exact Ha|].
    destruct (progress_event_wf p percent w Hinv Hp Hi Hk) as [elapsed [_ Hrun]].
    eexists. eexists. exact Hrun.
  - intros q Hp. apply progress_idle. exact Hp.
  - intros p2 Hi2. cbn [run fold_left].
    destruct (_is_printing (self w)) eqn:Hp.
    + destruct (Z_le_gt_dec percent (_last_progress (self w))) as [Hk|Hk].
      * assert (He : exec (PrintProgressChanged p) w = w).
        { unfold exec. cbn [perform]. rewrite (progress_stale p percent) by assumption.
          reflexivity. }
        rewrite He. unfold exec. cbn [perform].
        rewrite (progress_stale p2 percent) by assumption. cbn [snd]. lia.
      * destruct (progress_event_effect_wf p percent w Hinv Hp Hi ltac:(lia))
          as [_ [Hs Ha]].
        assert (He : exec (PrintProgressChanged p2) (exec (PrintProgressChanged p) w) =
                     exec (PrintProgressChanged p) w).
        { unfold exec at 1. cbn [perform].
          rewrite (progress_stale p2 percent); [reflexivity| |exact Hi2|].
          - rewrite Hs. reflexivity.
          - rewrite Hs. cbn. lia. }
        rewrite He, Ha. lia.
    + assert (He : exec (PrintProgressChanged p) w = w).
      { unfold exec. cbn [perform]. rewrite progress_idle by assumption. reflexivity. }
      rewrite He. unfold exec. cbn [perform].
      rewrite progress_idle by assumption. cbn [snd]. lia.
Qed.

(** ** Percentages and time estimates *)


(** After a job start that ran to its end, a send attempt of the progress
    handler comes with a percentage of at least one. *)
Lemma progress_attempt_percent (w : World) (p : float) :
  0 <= _last_progress (self w) ->
  send_attempts (exec (PrintProgressChanged p) w) <> send_attempts w ->
  _is_printing (self w) = true /\
  exists k, py_int (fmul p c100) = Return k /\ _last_progress (self w) < k /\ 1 <= k.
Proof.
  intros Hl Hne.
  destruct (progress_attempt_inv p w Hne) as [Hp [k [Hi Hlt]]].
  split; [exact Hp|]. exists k. split; [exact Hi|]. split; [exact Hlt|]. lia.
Qed.

Lemma divisor_of_positive (p : float) : flt zero p = true -> divisor p = p.
Proof. intros H. unfold divisor. rewrite H. reflexivity. Qed.

Lemma py_max_of_large (p : float) : flt p c001 = false -> py_max p c001 = p.
Proof. intros H. unfold py_max. rewrite H. reflexivity. Qed.

Lemma py_max_of_small (p : float) : flt p c001 = true -> py_max p c001 = c001.
Proof. intros H. unfold py_max. rewrite H. reflexivity. Qed.

Lemma mul100_nan : fmul S754_nan c100 = S754_nan.
Proof. cbv [fmul SFmul c100]. reflexivity. Qed.

Lemma mul100_infinity (s : bool) : fmul (S754_infinity s) c100 = S754_infinity (xorb s false).
Proof. cbv [fmul SFmul c100]. reflexivity. Qed.

(** A double that is at least the double [0.01] is positive. *)
Lemma fle_c001_positive (p : float) :
  fle c001 p = true -> flt zero p = true /\ flt p c001 = false.
Proof.
  destruct p as [s|s| |s m e].
  - intros H. destruct s; vm_compute in H; discriminate H.
  - intros H. destruct s; vm_compute in H; [discriminate H|].
    split; reflexivity.
  - intros H. vm_compute in H. discriminate H.
  - destruct s.
    + intros H. cbv [fle SFleb SFcompare c001] in H. discriminate H.
    + intros H. split; [reflexivity|].
      unfold c001 in *. apply fle_finite_pos in H.
      destruct (flt (S754_finite false m e) (S754_finite false 5764607523034235 (-59)))
        eqn:E; [|reflexivity].
      apply flt_finite_pos in E. lia.
Qed.

(** On a progress whose percentage exists and that is not in the open
    interval from 0 to 0.01, the divisor of the code is the maximum of the
    progress and 0.01. *)
Lemma divisor_is_max (p : float) (k : Z) :
  py_int (fmul p c100) = Return k ->
  flt zero p = false \/ fle c001 p = true ->
  divisor p = py_max p c001.
Proof.
  intros Hi Hcase.
  assert (Hlarge : fle c001 p = true -> divisor p = py_max p c001).
  { intros H. destruct (fle_c001_positive p H) as [Hpos Hnlt].
    rewrite divisor_of_positive, py_max_of_large by assumption. reflexivity. }
  destruct Hcase as [Hnpos|Hge]; [|exact (Hlarge Hge)].
  destruct p as [s|s| |s m e].
  - unfold divisor. rewrite Hnpos. symmetry. apply py_max_of_small.
    destruct s; reflexivity.
  - rewrite mul100_infinity in Hi. discriminate Hi.
  - rewrite mul100_nan in Hi. discriminate Hi.
  - destruct s; [|discriminate Hnpos].
    unfold divisor. rewrite Hnpos. symmetry. apply py_max_of_small. reflexivity.
Qed.

(** C4, as the code has it: whenever the progress handler makes a send
    attempt in a reachable state, with [e] the elapsed time
    [time.time() - self._print_start_time], the
    [estimated_remaining_seconds] of the event is [e / d - e] with [d] the
    divisor of the code, [progress if progress > 0 else 0.01]. That divisor
    is [max(progress, 0.01)] when the last percentage is at least 0 (as a
    job start that ran to its end leaves it), and whenever the progress is
    at least 0.01 or not positive. For a progress strictly between 0 and 0.01
    the divisor is the progress while the maximum is 0.01, and the event
    fires only while a job prints with a last percentage of -1. *)
Theorem estimate_divisor (w : World) (p : float) :
  reachable w -> valid p = true ->
  send_attempts (exec (PrintProgressChanged p) w) <> send_attempts w ->
  exists d w2 e total,
    _on_print_progress_changed p w = _send_webhook_update "progress_update" d w2 /\
    py_sub (time_time (time_calls w)) (_print_start_time (self w)) = Return e /\
    py_truediv e (divisor p) = Return total /\
    dict_get "elapsed_time_seconds" d = Some (PFloat e) /\
    dict_get "estimated_remaining_seconds" d = Some (PFloat (fsub total e)) /\
    (0 <= _last_progress (self w) -> divisor p = py_max p c001) /\
    (flt zero p = false \/ fle c001 p = true -> divisor p = py_max p c001) /\
    (flt zero p = true -> flt p c001 = true ->
     divisor p = p /\ py_max p c001 = c001 /\
     _is_printing (self w) = true /\ _last_progress (self w) = -1).
Proof.
  intros Hr Hv Hne.
  pose proof (reachable_wf w Hr) as Hwf.
  destruct (progress_attempt_inv p w Hne) as [Hp [k [Hi Hlt]]].
  destruct (progress_event_wf p k w Hwf Hp Hi Hlt) as [e [Hsub Hrun]].
  assert (Hstarted : 0 <= _last_progress (self w) ->
                     flt p c001 = false /\ fle c001 p = true /\ flt zero p = true).
  { intros Hl. apply (percent_positive_progress p k Hv Hi). lia. }
  eexists. eexists. exists e. exists (fdiv e (divisor p)).
  split; [exact Hrun|]. split; [exact Hsub|]. split.
  { unfold py_truediv. rewrite divisor_not_zero. reflexivity. }
  split; [reflexivity|]. split; [reflexivity|]. split; [|split].
  - intros Hl. destruct (Hstarted Hl) as [_ [Hge _]].
    apply (divisor_is_max p k Hi). right. exact Hge.
  - apply (divisor_is_max p k Hi).
  - intros Hpos Hsmall. split; [apply divisor_of_positive; exact Hpos|].
    split; [apply py_max_of_small; exact Hsmall|]. split; [exact Hp|].
    destruct Hwf as [_ [Hl _]].
    destruct (Z_le_gt_dec 0 (_last_progress (self w))) as [H0|H0]; [|lia].
    destruct (Hstarted H0) as [Hn _]. rewrite Hn in Hsmall. discriminate Hsmall.
Qed.

(** C5, as the code has it: while a job prints, in any reachable state, a
    progress of zero (of either sign) makes no send attempt and leaves the
    world as it is when the last percentage is at least 0, as a job start
    that ran to its end leaves it. When the last percentage is -1,
    which a job start cut short by a raising [getName()] leaves, it makes
    one send attempt, a [progress_update] with a percentage of 0 whose
    estimate divides by 0.01. *)
Theorem zero_progress_while_printing (w : World) (s : bool) :
  reachable w -> _is_printing (self w) = true ->
  (0 <= _last_progress (self w) ->
   _on_print_progress_changed (S754_zero s) w = (Return tt, w) /\
   exec (PrintProgressChanged (S754_zero s)) w = w) /\
  (_last_progress (self w) < 0 ->
   exists e,
     py_sub (time_time (time_calls w)) (_print_start_time (self w)) = Return e /\
     _on_print_progress_changed (S754_zero s) w =
     _send_webhook_update "progress_update"
       [("job_name", PStr (_current_job_name (self w)));
        ("progress_percent", PInt 0);
        ("elapsed_time_seconds", PFloat e);
        ("estimated_remaining_seconds", PFloat (fsub (fdiv e c001) e));
        ("timestamp", PFloat (time_time (S (time_calls w))))]
       (mkWorld (mkPlugin (_webhook_url (self w)) 0 true (_current_job_name (self w))
                          (_print_start_time (self w)))
                (logged w) (threads w) (requests w) (S (S (time_calls w)))) /\
     send_attempts (exec (PrintProgressChanged (S754_zero s)) w) =
     S (send_attempts w)).
Proof.
  intros Hr Hp.
  pose proof (reachable_wf w Hr) as Hwf.
  assert (Hi : py_int (fmul (S754_zero s) c100) = Return 0).
  { destruct s; reflexivity. }
  split.
  - intros Hl.
    assert (Hrun : _on_print_progress_changed (S754_zero s) w = (Return tt, w)).
    { apply (progress_stale (S754_zero s) 0); [exact Hp|exact Hi|lia]. }
    split; [exact Hrun|]. unfold exec. cbn [perform]. rewrite Hrun. reflexivity.
  - intros Hl.
    destruct (progress_event_wf (S754_zero s) 0 w Hwf Hp Hi Hl) as [e [Hsub Hrun]].
    exists e. split; [exact Hsub|]. split.
    + rewrite Hrun. destruct s; reflexivity.
    + apply (progress_event_effect_wf (S754_zero s) 0 w Hwf Hp Hi Hl).
Qed.

(** C9, as the code has it: in a reachable state whose last percentage is
    at least 0, as a job start that ran to its end leaves it, a send
    attempt of the progress handler means that the progress is at least the
    double [0.01]; the division of the time estimate is by the progress
    itself, so by at least [0.01], and the [else 0.01] branch is not taken.
    A send attempt with a smaller progress happens only while a job prints
    with a last percentage of -1. *)
Theorem progress_event_needs_one_percent (w : World) (p : float) :
  reachable w -> valid p = true ->
  send_attempts (exec (PrintProgressChanged p) w) <> send_attempts w ->
  (0 <= _last_progress (self w) ->
   fle c001 p = true /\ flt zero p = true /\
   divisor p = p /\ fle c001 (divisor p) = true) /\
  (fle c001 p = false ->
   _is_printing (self w) = true /\ _last_progress (self w) = -1).
Proof.
  intros Hr Hv Hne.
  destruct (progress_attempt_inv p w Hne) as [Hp [k [Hi Hlt]]].
  assert (Hstarted : 0 <= _last_progress (self w) ->
                     fle c001 p = true /\ flt zero p = true).
  { intros Hl.
    destruct (percent_positive_progress p k Hv Hi ltac:(lia)) as [_ [Hge Hpos]].
    split; assumption. }
  split.
  - intros Hl. destruct (Hstarted Hl) as [Hge Hpos].
    split; [exact Hge|]. split; [exact Hpos|].
    rewrite (divisor_of_positive p Hpos). split; [reflexivity|exact Hge].
  - intros Hsmall. split; [exact Hp|].
    destruct (reachable_wf w Hr) as [_ [Hl _]].
    destruct (Z_le_gt_dec 0 (_last_progress (self w))) as [H0|H0]; [|lia].
    destruct (Hstarted H0) as [Hge _]. rewrite Hge in Hsmall. discriminate Hsmall.
Qed.

(** ** No URL, no request *)

Lemma silenced_modify_self (R : list Request) (f : Plugin -> Plugin) :
  (forall p, _webhook_url (f p) = _webhook_url p) ->
  preserves (silenced R) (modify_self f).
Proof.
  intros Hf w [Hr [Ht Hu]]. unfold silenced. cbn. rewrite Hf. repeat split; assumption.
Qed.

Lemma silenced_Logger_log (R : list Request) (level : string) (msg : log_msg) :
  preserves (silenced R) (Logger_log level msg).
Proof. intros w H. exact H. Qed.

Lemma silenced_time_time_call (R : list Request) :
  preserves (silenced R) time_time_call.
Proof. intros w H. exact H. Qed.

Lemma silenced_send_update (R : list Request) (event_type : string) (d : dict) :
  preserves (silenced R) (_send_webhook_update event_type d).
Proof.
  intros w [Hr [Ht Hu]]. rewrite (send_update_blocked _ _ _ Hu).
  repeat split; assumption.
Qed.

Ltac silenced_steps :=
  repeat first
    [ apply preserves_ret
    | apply preserves_lift
    | apply preserves_get_self
    | apply silenced_Logger_log
    | apply silenced_time_time_call
    | apply silenced_send_update
    | apply silenced_modify_self; intros; reflexivity
    | apply preserves_if
    | apply preserves_bind; [|intros ?] ].

Lemma silenced_job_changed (R : list Request) (job : option Job) :
  preserves (silenced R) (_on_print_job_changed job).
Proof.
  intros w [Hr [Ht Hu]].
  destruct job as [j|].
  - destruct (job_name j) as [name|e] eqn:Hn.
    + rewrite (job_started_run j name w Hn).
      rewrite send_update_blocked by exact Hu. repeat split; assumption.
    + rewrite (job_start_cut j e w Hn). repeat split; assumption.
  - rewrite job_ended_run.
    rewrite send_update_blocked by exact Hu. repeat split; assumption.
Qed.

Lemma silenced_progress_changed (R : list Request) (p : float) :
  preserves (silenced R) (_on_print_progress_changed p).
Proof.
  unfold _on_print_progress_changed, set_last_progress. silenced_steps.
Qed.

(** With no URL configured the timer tick returns at once. *)
Lemma check_print_progress_unconfigured (output_devices : list Device) (w : World) :
  url_unconfigured (_webhook_url (self w)) = true ->
  _check_print_progress output_devices w = (Return tt, w).
Proof.
  intros Hu. unfold _check_print_progress, bind, get_self. rewrite Hu. reflexivity.
Qed.

Lemma silenced_perform (R : list Request) (a : action) :
  (forall u, a = SetWebhookUrl u -> url_unconfigured u = true) ->
  preserves (silenced R) (perform a).
Proof.
  intros Hset. destruct a as [job|p|st|ds|url|n]; cbn [perform].
  - apply silenced_job_changed.
  - apply silenced_progress_changed.
  - apply silenced_Logger_log.
  - intros w H. destruct H as [Hr [Ht Hu]].
    rewrite (check_print_progress_unconfigured ds w Hu). repeat split; assumption.
  - intros w [Hr [Ht Hu]]. unfold silenced. cbn.
    repeat split; try assumption. apply Hset. reflexivity.
  - intros w [Hr [Ht Hu]]. unfold bind, take_thread. rewrite Ht.
    destruct n; cbn; repeat split; assumption.
Qed.

Lemma silenced_run (R : list Request) (acts : list action) :
  (forall u, In (SetWebhookUrl u) acts -> url_unconfigured u = true) ->
  forall w, silenced R w -> silenced R (run acts w).
Proof.
  induction acts as [|a rest IH]; intros Hset w H.
  - exact H.
  - cbn [run fold_left]. apply IH.
    + intros u Hin. apply Hset. right. exact Hin.
    + apply silenced_perform; [|exact H].
      intros u ->. apply Hset. left. reflexivity.
Qed.

(** C6: while the webhook URL is the empty string or the placeholder, and
    no thread from an earlier time waits, nothing that happens (signals
    from the host, timer ticks, threads scheduled, the URL set to a
    sentinel again) issues an HTTP request or starts a thread; a send
    attempt only writes the warning to the log, and a timer tick does
    nothing at all. *)
Theorem unconfigured_url_sends_nothing (acts : list action) (w : World) :
  url_unconfigured (_webhook_url (self w)) = true ->
  threads w = [] ->
  (forall u, In (SetWebhookUrl u) acts -> url_unconfigured u = true) ->
  requests (run acts w) = requests w /\
  threads (run acts w) = [] /\
  url_unconfigured (_webhook_url (self (run acts w))) = true /\
  (forall (event_type : string) (d : dict),
      _send_webhook_update event_type d w =
      (Return tt, mkWorld (self w) (logged w ++ [("w", MsgNotConfiguredSkipping)])
                          (threads w) (requests w) (time_calls w))) /\
  (forall output_devices : list Device,
      _check_print_progress output_devices w = (Return tt, w)).
Proof.
  intros Hu Ht Hset.
  assert (Hs : silenced (requests w) w) by (repeat split; assumption).
  destruct (silenced_run (requests w) acts Hset w Hs) as [Hr' [Ht' Hu']].
  split; [exact Hr'|]. split; [exact Ht'|]. split; [exact Hu'|]. split.
  - intros event_type d. apply send_update_blocked. exact Hu.
  - intros ds. apply check_print_progress_unconfigured. exact Hu.
Qed.

(** ** The request of a thread *)

(** The line that the [except] clauses of [_send_webhook_request] log for
    an exception: the first clause that matches, [HTTPError] before
    [URLError] before [Exception]. *)
Lemma except_clauses_log (e : exn) (w : World) :
  match e with
  | HTTPError code reason => Logger_log "e" (MsgHTTPError code reason)
  | URLError reason => Logger_log "e" (MsgURLError reason)
  | _ => Logger_log "e" (MsgUnexpectedError e)
  end w =
  (Return tt,
   mkWorld (self w)
           (logged w ++ [("e", match e with
                               | HTTPError code reason => MsgHTTPError code reason
                               | URLError reason => MsgURLError reason
                               | _ => MsgUnexpectedError e
                               end)])
           (threads w) (requests w) (time_calls w)).
Proof. destruct e; reflexivity. Qed.

Ltac clash_request :=
  let Hb := fresh "Hb" in
  let Hq' := fresh "Hq'" in
  intros ? ? Hb Hq'; injection Hb as <-;
  match goal with
  | H : urllib_Request _ _ _ = Return _ |- _ => rewrite H in Hq'
  end;
  discriminate.

(** C7: [_send_webhook_request] returns normally for every payload and
    every answer of the serializer, of [Request] and of the network; it
    leaves the tracker alone and writes exactly one line to the log. A
    status of 200 logs the success with the event type at level [d], any
    other status logs a warning with the status code, and an exception of
    any step (serialization, URL, HTTP error, network error, timeout or
    another one) logs an error. *)
Theorem send_request_never_raises (payload : pyval) (w : World) :
  exists entry reqs,
    _send_webhook_request payload w =
    (Return tt, mkWorld (self w) (logged w ++ [entry]) (threads w)
                        (requests w ++ reqs) (time_calls w)) /\
    (forall e, json_dumps payload = Raise e -> fst entry = "e" /\ reqs = []) /\
    (forall body e,
        json_dumps payload = Return body ->
        urllib_Request (_webhook_url (self w)) body request_headers = Raise e ->
        fst entry = "e" /\ reqs = []) /\
    (forall body req,
        json_dumps payload = Return body ->
        urllib_Request (_webhook_url (self w)) body request_headers = Return req ->
        reqs = [req] /\
        (forall e, urlopen_result (List.length (requests w)) req 10 = Raise e ->
                   fst entry = "e") /\
        (forall code reason,
            urlopen_result (List.length (requests w)) req 10 = Raise (HTTPError code reason) ->
            entry = ("e", MsgHTTPError code reason)) /\
        (forall reason,
            urlopen_result (List.length (requests w)) req 10 = Raise (URLError reason) ->
            entry = ("e", MsgURLError reason)) /\
        (urlopen_result (List.length (requests w)) req 10 = Raise TimeoutError ->
         entry = ("e", MsgUnexpectedError TimeoutError)) /\
        (forall event_type,
            urlopen_result (List.length (requests w)) req 10 = Return 200 ->
            py_getitem payload "event_type" = Return event_type ->
            entry = ("d", MsgSentSuccessfully event_type)) /\
        (forall code,
            urlopen_result (List.length (requests w)) req 10 = Return code ->
            code <> 200 ->
            entry = ("w", MsgReturnedStatus code))).
Proof.
  unfold _send_webhook_request, try_except, bind, lift, get_self, urlopen.
  destruct (json_dumps payload) as [body|e] eqn:Hj.
  2:{ rewrite (except_clauses_log e w).
      set (msg := match e with
                  | HTTPError code reason => MsgHTTPError code reason
                  | URLError reason => MsgURLError reason
                  | _ => MsgUnexpectedError e
                  end).
      exists ("e", msg), []. rewrite app_nil_r.
      split; [reflexivity|]. split; [intros; split; reflexivity|].
      split; intros; discriminate. }
  destruct (urllib_Request (_webhook_url (self w)) body request_headers) as [req|e] eqn:Hq.
  2:{ rewrite (except_clauses_log e w).
      set (msg := match e with
                  | HTTPError code reason => MsgHTTPError code reason
                  | URLError reason => MsgURLError reason
                  | _ => MsgUnexpectedError e
                  end).
      exists ("e", msg), []. rewrite app_nil_r.
      split; [reflexivity|]. split; [intros; discriminate|].
      split; [intros; split; reflexivity|].
      intros body' req' Hb. injection Hb as <-. intros Hq'. rewrite Hq in Hq'.
      discriminate. }
  cbn [self logged threads requests time_calls].
  assert (Hreq : forall body' req',
             Return body = Return body' ->
             urllib_Request (_webhook_url (self w)) body' request_headers = Return req' ->
             req' = req).
  { intros body' req' Hb Hq'. injection Hb as <-. rewrite Hq in Hq'.
    injection Hq' as <-. reflexivity. }
  destruct (urlopen_result (List.length (requests w)) req 10) as [code|e] eqn:Ho.
  2:{ match goal with
      | |- context [match e with _ => _ end ?w1] =>
          rewrite (except_clauses_log e w1)
      end.
      set (msg := match e with
                  | HTTPError code reason => MsgHTTPError code reason
                  | URLError reason => MsgURLError reason
                  | _ => MsgUnexpectedError e
                  end).
      cbn [self logged threads requests time_calls].
      exists ("e", msg), [req].
      split; [reflexivity|]. split; [intros; discriminate|].
      split; [clash_request|].
      intros body' req' Hb Hq'. rewrite (Hreq body' req' Hb Hq'). rewrite Ho.
      split; [reflexivity|]. split; [intros; reflexivity|].
      split; [|split; [|split; [|split]]].
      - intros code reason He. injection He as He. subst e. reflexivity.
      - intros reason He. injection He as He. subst e. reflexivity.
      - intros He. injection He as He. subst e. reflexivity.
      - intros; discriminate.
      - intros; discriminate. }
  destruct (code =? 200) eqn:Hc.
  - apply Z.eqb_eq in Hc. subst code.
    destruct (py_getitem payload "event_type") as [et|e] eqn:Hg.
    + exists ("d", MsgSentSuccessfully et), [req].
      split; [reflexivity|]. split; [intros; discriminate|].
      split; [clash_request|].
      intros body' req' Hb Hq'. rewrite (Hreq body' req' Hb Hq'). rewrite Ho.
      split; [reflexivity|]. repeat split; intros; try discriminate.
      * match goal with H : Return et = Return _ |- _ => injection H as <- end.
        reflexivity.
      * match goal with H : Return 200 = Return _ |- _ => injection H as <- end.
        contradiction.
    + match goal with
      | |- context [match e with _ => _ end ?w1] =>
          rewrite (except_clauses_log e w1)
      end.
      set (msg := match e with
                  | HTTPError code reason => MsgHTTPError code reason
                  | URLError reason => MsgURLError reason
                  | _ => MsgUnexpectedError e
                  end).
      cbn [self logged threads requests time_calls].
      exists ("e", msg), [req].
      split; [reflexivity|]. split; [intros; discriminate|].
      split; [clash_request|].
      intros body' req' Hb Hq'. rewrite (Hreq body' req' Hb Hq'). rewrite Ho.
      split; [reflexivity|]. repeat split; intros; try discriminate.
      match goal with H : Return 200 = Return _ |- _ => injection H as <- end.
      contradiction.
  - apply Z.eqb_neq in Hc.
    exists ("w", MsgReturnedStatus code), [req].
    split; [reflexivity|]. split; [intros; discriminate|].
    split; [clash_request|].
    intros body' req' Hb Hq'. rewrite (Hreq body' req' Hb Hq'). rewrite Ho.
    split; [reflexivity|]. repeat split; intros; try discriminate.
    + match goal with H : Return code = Return 200 |- _ => injection H as -> end.
      contradiction.
    + match goal with H : Return code = Return _ |- _ => injection H as <- end.
      reflexivity.
Qed.

(** ** Job-changed signals *)

Lemma job_ended_effect (w : World) :
  fst (_on_print_job_changed None w) = Return tt /\
  self (exec (PrintJobChanged None) w) =
    mkPlugin (_webhook_url (self w)) (-1) false "" (_print_start_time (self w)) /\
  send_attempts (exec (PrintJobChanged None) w) = S (send_attempts w).
Proof.
  unfold exec. cbn [perform]. rewrite job_ended_run.
  match goal with
  | |- context [_send_webhook_update ?ev ?d ?w1] =>
      destruct (send_update_frame ev d w1) as [Hf [Hs [_ [_ Ha]]]]
  end.
  rewrite Hf, Hs, Ha. repeat split.
Qed.

Lemma job_started_effect (j : Job) (name : string) (w : World) :
  job_name j = Return name ->
  fst (_on_print_job_changed (Some j) w) = Return tt /\
  self (exec (PrintJobChanged (Some j)) w) =
    mkPlugin (_webhook_url (self w)) 0 true name
             (PFloat (time_time (time_calls w))) /\
  send_attempts (exec (PrintJobChanged (Some j)) w) = S (send_attempts w).
Proof.
  intros Hn. unfold exec. cbn [perform]. rewrite (job_started_run j name w Hn).
  match goal with
  | |- context [_send_webhook_update ?ev ?d ?w1] =>
      destruct (send_update_frame ev d w1) as [Hf [Hs [_ [_ Ha]]]]
  end.
  rewrite Hf, Hs, Ha. repeat split.
Qed.

(** The handler returns when it gets no job, and when the name of the job
    is read. *)
Lemma job_changed_returns (job : option Job) (w : World) :
  (forall j, job = Some j -> job_named j = true) ->
  _on_print_job_changed job w = (Return tt, exec (PrintJobChanged job) w).
Proof.
  intros Hnamed. unfold exec. cbn [perform].
  destruct job as [j|].
  - destruct (job_named_name j (Hnamed j eq_refl)) as [name Hn].
    destruct (job_started_effect j name w Hn) as [Hf _].
    destruct (_on_print_job_changed (Some j) w) as [o w1].
    cbn in Hf. rewrite Hf. reflexivity.
  - destruct (job_ended_effect w) as [Hf _].
    destruct (_on_print_job_changed None w) as [o w1].
    cbn in Hf. rewrite Hf. reflexivity.
Qed.

Lemma job_ended_returns (w : World) :
  _on_print_job_changed None w = (Return tt, exec (PrintJobChanged None) w).
Proof. apply job_changed_returns. intros j H. discriminate H. Qed.

Lemma job_started_returns (j : Job) (w : World) :
  job_named j = true ->
  _on_print_job_changed (Some j) w = (Return tt, exec (PrintJobChanged (Some j)) w).
Proof.
  intros Hn. apply job_changed_returns. intros j' H. injection H as <-. exact Hn.
Qed.

(** The timer loop over devices without a job, while no job prints. *)
Lemma check_devices_idle (output_devices : list Device) (w : World) :
  Forall (fun d => activePrintJob d = None \/ activePrintJob d = Some None)
         output_devices ->
  _is_printing (self w) = false ->
  check_devices output_devices w = (Return tt, w).
Proof.
  induction 1 as [|d ds Hd _ IH]; intros Hp; [reflexivity|].
  cbn [check_devices]. unfold bind at 1.
  assert (Hdev : check_device d w = (Return tt, w)).
  { unfold check_device. destruct Hd as [-> | ->]; [reflexivity|].
    unfold bind, get_self. rewrite Hp. reflexivity. }
  rewrite Hdev. apply IH. exact Hp.
Qed.

(** The timer loop over devices without a job, while a job prints: the
    first device that has the attribute ends the job. *)
Lemma check_devices_end (output_devices : list Device) (w : World) :
  Forall (fun d => activePrintJob d = None \/ activePrintJob d = Some None)
         output_devices ->
  Exists (fun d => activePrintJob d = Some None) output_devices ->
  _is_printing (self w) = true ->
  check_devices output_devices w = _on_print_job_changed None w.
Proof.
  induction 1 as [|d ds Hd Hds IH]; intros Hex Hp.
  - inversion Hex.
  - cbn [check_devices]. unfold bind at 1.
    destruct (activePrintJob d) as [[job|]|] eqn:Ha.
    + destruct Hd as [Hd|Hd]; discriminate.
    + assert (Hdev : check_device d w = _on_print_job_changed None w).
      { unfold check_device. rewrite Ha. unfold bind, get_self. rewrite Hp. reflexivity. }
      rewrite Hdev, job_ended_returns.
      apply check_devices_idle; [exact Hds|].
      destruct (job_ended_effect w) as [_ [Hs _]]. rewrite Hs. reflexivity.
    + assert (Hdev : check_device d w = (Return tt, w)).
      { unfold check_device. rewrite Ha. reflexivity. }
      rewrite Hdev. apply IH; [|exact Hp].
      inversion Hex as [d' ds' Hhere|d' ds' Hthere]; subst; [|exact Hthere].
      rewrite Ha in Hhere. discriminate.
Qed.

(** C8, as the code has it: when a job prints and the job-changed handler
    gets no job, its run is one call of [_send_webhook_update] with a
    [print_ended] event; afterwards no job prints, the job name is empty
    and the last percentage is -1, while the start time keeps the value it
    had. The timer does the same when a URL is configured and the devices
    report no job. *)
Theorem job_end_resets_tracker (w : World) :
  _is_printing (self w) = true ->
  _on_print_job_changed None w =
    _send_webhook_update "print_ended"
      [("message", PStr "Print job ended or cancelled");
       ("timestamp", PFloat (time_time (time_calls w)))]
      (mkWorld (mkPlugin (_webhook_url (self w)) (-1) false ""
                         (_print_start_time (self w)))
               (logged w) (threads w) (requests w) (S (time_calls w))) /\
  fst (_on_print_job_changed None w) = Return tt /\
  _is_printing (self (exec (PrintJobChanged None) w)) = false /\
  _current_job_name (self (exec (PrintJobChanged None) w)) = "" /\
  _last_progress (self (exec (PrintJobChanged None) w)) = -1 /\
  _print_start_time (self (exec (PrintJobChanged None) w)) =
    _print_start_time (self w) /\
  send_attempts (exec (PrintJobChanged None) w) = S (send_attempts w) /\
  (forall output_devices : list Device,
      url_unconfigured (_webhook_url (self w)) = false ->
      Forall (fun d => activePrintJob d = None \/ activePrintJob d = Some None)
             output_devices ->
      Exists (fun d => activePrintJob d = Some None) output_devices ->
      _check_print_progress output_devices w = _on_print_job_changed None w).
Proof.
  intros Hp.
  destruct (job_ended_effect w) as [Hf [Hs Ha]].
  split; [apply job_ended_run|]. split; [exact Hf|].
  rewrite Hs. repeat split; try reflexivity; try exact Ha.
  intros ds Hu Hall Hex.
  unfold _check_print_progress, bind, get_self, try_except. rewrite Hu.
  rewrite (check_devices_end ds w Hall Hex Hp), job_ended_returns. reflexivity.
Qed.


Lemma reachable_run (acts : list action) :
  forall w, reachable w -> reachable (run acts w).
Proof.
  induction acts as [|a rest IH]; intros w Hr.
  - exact Hr.
  - cbn [run fold_left]. apply IH. apply reachable_step. exact Hr.
Qed.

(** ** The events as a reader sees them *)

Lemma replay_app (st : option Z) (e1 e2 : list pyval) :
  replay st (e1 ++ e2) =
  match replay st e1 with
  | Some st' => replay st' e2
  | None => None
  end.
Proof.
  revert st. induction e1 as [|e rest IH]; intros st; [reflexivity|].
  cbn [app replay]. destruct (event_step st e) as [st'|]; [apply IH|reflexivity].
Qed.

Lemma event_step_payload (st : option Z) (event_type : string) (d : dict) :
  event_step st (event_payload event_type d) =
  if String.eqb event_type "print_started" then Some (Some 0)
  else if String.eqb event_type "print_ended" then Some None
  else if String.eqb event_type "progress_update" then
    match st, dict_get "progress_percent" d with
    | Some l, Some (PInt k) => if l <? k then Some (Some k) else None
    | _, _ => None
    end
  else None.
Proof. reflexivity. Qed.

Lemma stream_ok_refl (w : World) :
  url_unconfigured (_webhook_url (self w)) = false ->
  tracker_inv (self w) ->
  stream_ok w w.
Proof.
  intros Hu Hi. split; [exact Hu|]. split; [exact Hi|].
  exists []. rewrite app_nil_r. split; reflexivity.
Qed.

Lemma stream_ok_trans (w w1 w2 : World) :
  stream_ok w w1 -> stream_ok w1 w2 -> stream_ok w w2.
Proof.
  intros [_ [_ [ev1 [Ht1 Hr1]]]] [Hu [Hi [ev2 [Ht2 Hr2]]]].
  split; [exact Hu|]. split; [exact Hi|].
  exists (ev1 ++ ev2). split.
  - rewrite Ht2, Ht1, app_assoc. reflexivity.
  - rewrite replay_app, Hr1. exact Hr2.
Qed.

Lemma streams_ret {A : Type} (a : A) : streams (ret a).
Proof. intros w Hu Hi. apply stream_ok_refl; assumption. Qed.

Lemma streams_lift {A : Type} (o : outcome A) : streams (lift o).
Proof. intros w Hu Hi. apply stream_ok_refl; assumption. Qed.

Lemma streams_get_self {A : Type} (field : Plugin -> A) : streams (get_self field).
Proof. intros w Hu Hi. apply stream_ok_refl; assumption. Qed.

Lemma streams_Logger_log (level : string) (msg : log_msg) :
  streams (Logger_log level msg).
Proof.
  intros w Hu Hi. split; [exact Hu|]. split; [exact Hi|].
  exists []. cbn. rewrite app_nil_r. split; reflexivity.
Qed.

Lemma streams_bind {A B : Type} (c : M A) (k : A -> M B) :
  streams c -> (forall a, streams (k a)) -> streams (bind c k).
Proof.
  intros Hc Hk w Hu Hi. unfold bind.
  specialize (Hc w Hu Hi). destruct (c w) as [[a|e] w1]; cbn [snd] in *.
  - apply (stream_ok_trans w w1); [exact Hc|].
    destruct Hc as [Hu1 [Hi1 _]]. apply Hk; assumption.
  - exact Hc.
Qed.

Lemma streams_try_except {A : Type} (c : M A) (h : exn -> M A) :
  streams c -> (forall e, streams (h e)) -> streams (try_except c h).
Proof.
  intros Hc Hh w Hu Hi. unfold try_except.
  specialize (Hc w Hu Hi). destruct (c w) as [[a|e] w1]; cbn [snd] in *.
  - exact Hc.
  - apply (stream_ok_trans w w1); [exact Hc|].
    destruct Hc as [Hu1 [Hi1 _]]. apply Hh; assumption.
Qed.

Lemma streams_if {A : Type} (b : bool) (c1 c2 : M A) :
  streams c1 -> streams c2 -> streams (if b then c1 else c2).
Proof. destruct b; intros; assumption. Qed.

Lemma streams_job_changed (job : option Job) :
  (forall j, job = Some j -> job_named j = true) ->
  streams (_on_print_job_changed job).
Proof.
  intros Hnamed w Hu Hi.
  pose proof (job_changed_inv job Hnamed w Hi) as Hi'.
  destruct job as [j|].
  - destruct (job_named_name j (Hnamed j eq_refl)) as [name Hn].
    rewrite (job_started_run j name w Hn) in *.
    rewrite send_update_started in * by exact Hu. cbn [snd] in *.
    split; [exact Hu|]. split; [exact Hi'|].
    eexists. split; [reflexivity|].
    cbn [replay]. rewrite event_step_payload. reflexivity.
  - rewrite job_ended_run in *.
    rewrite send_update_started in * by exact Hu. cbn [snd] in *.
    split; [exact Hu|]. split; [exact Hi'|].
    eexists. split; [reflexivity|].
    cbn [replay]. rewrite event_step_payload. reflexivity.
Qed.

Lemma streams_progress_changed (p : float) : streams (_on_print_progress_changed p).
Proof.
  intros w Hu Hi.
  destruct (_is_printing (self w)) eqn:Hp.
  2:{ rewrite progress_idle by assumption. apply stream_ok_refl; assumption. }
  destruct (py_int (fmul p c100)) as [k|e] eqn:Hk.
  2:{ rewrite (progress_raises p e) by assumption. apply stream_ok_refl; assumption. }
  destruct (Z_le_gt_dec k (_last_progress (self w))) as [Hle|Hgt].
  { rewrite (progress_stale p k) by assumption. apply stream_ok_refl; assumption. }
  pose proof (progress_inv p w Hi) as Hi'.
  destruct (progress_event p k w Hi Hp Hk ltac:(lia)) as [t0 [Ht Hrun]].
  rewrite Hrun in *.
  rewrite send_update_started in * by exact Hu. cbn [snd] in *.
  split; [exact Hu|]. split; [exact Hi'|].
  eexists. split; [reflexivity|].
  cbn [replay]. rewrite event_step_payload.
  unfold tracker_state. rewrite Hp. cbn.
  assert (Hlt : (_last_progress (self w) <? k) = true) by lia.
  rewrite Hlt. reflexivity.
Qed.

Lemma streams_check_device (device : Device) :
  device_named device = true -> streams (check_device device).
Proof.
  unfold check_device, device_named.
  destruct (activePrintJob device) as [[job|]|]; intros Hnamed.
  - apply streams_bind; [apply streams_get_self|intros printing].
    apply streams_bind.
    + apply streams_if; [apply streams_job_changed|apply streams_ret].
      intros j H. injection H as <-. exact Hnamed.
    + intros _.
      destruct (match getProgress job with
                | Some v => v
                | None => match printProgress device with
                          | Some v => v
                          | None => Some zero
                          end
                end) as [p|]; [apply streams_progress_changed|apply streams_ret].
  - apply streams_bind; [apply streams_get_self|intros printing].
    apply streams_if; [apply streams_job_changed|apply streams_ret].
    intros j H. discriminate H.
  - apply streams_ret.
Qed.

Lemma streams_check_devices (output_devices : list Device) :
  forallb device_named output_devices = true ->
  streams (check_devices output_devices).
Proof.
  induction output_devices as [|device rest IH]; cbn [forallb check_devices];
    intros Hnamed.
  - apply streams_ret.
  - apply andb_true_iff in Hnamed. destruct Hnamed as [Hd Hrest].
    apply streams_bind; [apply streams_check_device; exact Hd|].
    intros _. exact (IH Hrest).
Qed.

Lemma streams_perform (a : action) :
  keeps_stream a = true -> streams (perform a).
Proof.
  destruct a as [job|p|st|ds|url|n]; cbn [keeps_stream perform]; intros Hk.
  - apply streams_job_changed. intros j ->. exact Hk.
  - apply streams_progress_changed.
  - apply streams_Logger_log.
  - unfold _check_print_progress.
    apply streams_bind; [apply streams_get_self|intros url].
    apply streams_if; [apply streams_ret|].
    apply streams_try_except; [apply streams_check_devices; exact Hk|intros e].
    apply streams_Logger_log.
  - intros w Hu Hi. split; [|split].
    + cbn. apply negb_true_iff. exact Hk.
    + exact Hi.
    + exists []. cbn. rewrite app_nil_r. split; reflexivity.
  - discriminate.
Qed.

(** X5: as long as a URL is configured, no thread is taken out and the
    name of every job that is started can be read (no call of [getName()]
    raises), the threads that the tracker starts carry a stream of events
    that a reader can follow: it leads from the state the tracker had to
    the state it has. So every [progress_update] comes after the
    [print_started] of its job, with a percentage above that of the one
    before. *)
Theorem event_stream_replays_tracker (acts : list action) (w : World) :
  url_unconfigured (_webhook_url (self w)) = false ->
  tracker_inv (self w) ->
  forallb keeps_stream acts = true ->
  exists events,
    threads (run acts w) = threads w ++ events /\
    replay (tracker_state (self w)) events =
      Some (tracker_state (self (run acts w))).
Proof.
  intros Hu Hi Hk.
  assert (H : stream_ok w (run acts w)).
  { revert w Hu Hi. induction acts as [|a rest IH]; intros w Hu Hi.
    - apply stream_ok_refl; assumption.
    - cbn [forallb] in Hk. apply andb_true_iff in Hk. destruct Hk as [Ha Hrest].
      cbn [run fold_left].
      pose proof (streams_perform a Ha w Hu Hi) as Hstep.
      apply (stream_ok_trans w (exec a w)); [exact Hstep|].
      destruct Hstep as [Hu1 [Hi1 _]]. apply IH; assumption. }
  destruct H as [_ [_ Hev]]. exact Hev.
Qed.

(** ** The bound of the last percentage *)

Lemma in_unit_percent (p : float) :
  in_unit p = true ->
  exists k, py_int (fmul p c100) = Return k /\ 0 <= k <= 100.
Proof.
  unfold in_unit. intros H.
  apply andb_true_iff in H. destruct H as [H H1].
  apply andb_true_iff in H. destruct H as [Hv H0].
  destruct (percent_unit_range p Hv H0 H1) as [k [Hi [_ Hk]]].
  exists k. split; assumption.
Qed.

Lemma bounded_job_changed (job : option Job) :
  preserves (fun w => bounded_inv (self w)) (_on_print_job_changed job).
Proof.
  intros w [Hi [Hb _]].
  pose proof (job_changed_wf job w Hi) as Hi'.
  split; [exact Hi'|].
  destruct job as [j|].
  - destruct (job_name j) as [name|e] eqn:Hn.
    + rewrite (job_started_self j name w Hn). cbn.
      split; [lia|discriminate].
    + rewrite (job_start_cut j e w Hn). cbn.
      split; [exact Hb|discriminate].
  - rewrite job_ended_self. cbn.
    split; [lia|reflexivity].
Qed.

Lemma bounded_progress_changed (p : float) :
  in_unit p = true ->
  preserves (fun w => bounded_inv (self w)) (_on_print_progress_changed p).
Proof.
  intros Hp w [Hi [Hb Hn]].
  pose proof (progress_wf p w Hi) as Hi'.
  split; [exact Hi'|].
  destruct (progress_self p w) as [Hs|[Hpr [k [Hk [_ Hs]]]]]; rewrite Hs.
  - split; assumption.
  - destruct (in_unit_percent p Hp) as [k' [Hk' Hr]].
    rewrite Hk in Hk'. injection Hk' as <-. cbn.
    split; [lia|discriminate].
Qed.

Lemma check_device_polled (device : Device) (job : Job) (w : World) :
  activePrintJob device = Some (Some job) ->
  check_device device w =
  bind (get_self _is_printing)
       (fun printing =>
          bind (if negb printing then _on_print_job_changed (Some job) else ret tt)
               (fun _ =>
                  match polled_progress device job with
                  | Some p => _on_print_progress_changed p
                  | None => ret tt
                  end)) w.
Proof. intros H. unfold check_device. rewrite H. reflexivity. Qed.

Lemma bounded_check_device (device : Device) :
  device_in_range device = true ->
  preserves (fun w => bounded_inv (self w)) (check_device device).
Proof.
  unfold device_in_range. intros Hr w Hb.
  destruct (activePrintJob device) as [[job|]|] eqn:Ha.
  - rewrite (check_device_polled device job w Ha). revert w Hb.
    change (preserves (fun w => bounded_inv (self w))
              (bind (get_self _is_printing)
                 (fun printing =>
                    bind (if negb printing then _on_print_job_changed (Some job)
                          else ret tt)
                      (fun _ =>
                         match polled_progress device job with
                         | Some p => _on_print_progress_changed p
                         | None => ret tt
                         end)))).
    apply preserves_bind; [apply preserves_get_self|intros printing].
    apply preserves_bind.
    + apply preserves_if; [apply bounded_job_changed|apply preserves_ret].
    + intros _. destruct (polled_progress device job) as [p|].
      * apply bounded_progress_changed. exact Hr.
      * apply preserves_ret.
  - revert w Hb. unfold check_device. rewrite Ha.
    change (preserves (fun w => bounded_inv (self w))
              (bind (get_self _is_printing)
                 (fun printing =>
                    if printing then _on_print_job_changed None else ret tt))).
    apply preserves_bind; [apply preserves_get_self|intros printing].
    apply preserves_if; [apply bounded_job_changed|apply preserves_ret].
  - unfold check_device. rewrite Ha. exact Hb.
Qed.

Lemma bounded_check_devices (output_devices : list Device) :
  forallb device_in_range output_devices = true ->
  preserves (fun w => bounded_inv (self w)) (check_devices output_devices).
Proof.
  induction output_devices as [|device rest IH]; cbn [forallb check_devices]; intros Hr.
  - apply preserves_ret.
  - apply andb_true_iff in Hr. destruct Hr as [Hd Hrest].
    apply preserves_bind; [apply bounded_check_device; exact Hd|intros _; exact (IH Hrest)].
Qed.

Lemma bounded_perform (a : action) :
  action_in_range a = true ->
  preserves (fun w => bounded_inv (self w)) (perform a).
Proof.
  destruct a as [job|p|st|ds|url|n]; cbn [action_in_range perform]; intros Hr.
  - apply bounded_job_changed.
  - apply bounded_progress_changed. exact Hr.
  - apply preserves_self_unchanged. intros w. reflexivity.
  - unfold _check_print_progress.
    apply preserves_bind; [apply preserves_get_self|intros url].
    apply preserves_if; [apply preserves_ret|].
    apply preserves_try_except; [apply bounded_check_devices; exact Hr|intros e].
    apply preserves_self_unchanged. intros w. reflexivity.
  - intros w [[Hidle [Hl Ht]] [Hb Hn]].
    split; [split; [|split]|split]; cbn; assumption.
  - intros w H. unfold bind, take_thread.
    destruct (nth_error (threads w) n) as [payload|]; [|exact H].
    match goal with
    | |- context [_send_webhook_request payload ?w1] =>
        destruct (send_request_run payload w1) as [entry [reqs [Hrun _]]]; rewrite Hrun
    end.
    exact H.
Qed.

(** X4: when every progress value that the host pushes or that the timer
    reads is a double in [[0, 1]], the last percentage stays between -1 and
    100, whatever the jobs and their names do; while no job prints it is
    -1 and the job name is empty. *)
Theorem last_progress_stays_in_range (acts : list action) (w : World) :
  bounded_inv (self w) ->
  forallb action_in_range acts = true ->
  -1 <= _last_progress (self (run acts w)) <= 100 /\
  (_is_printing (self (run acts w)) = false ->
   _last_progress (self (run acts w)) = -1) /\
  (_is_printing (self (run acts w)) = false ->
   _current_job_name (self (run acts w)) = "").
Proof.
  intros Hb Hr.
  assert (H : bounded_inv (self (run acts w))).
  { revert w Hb. induction acts as [|a rest IH]; intros w Hb; [exact Hb|].
    cbn [forallb] in Hr. apply andb_true_iff in Hr. destruct Hr as [Ha Hrest].
    cbn [run fold_left]. apply (IH Hrest). apply (bounded_perform a Ha w Hb). }
  destruct H as [[Hidle [Hl _]] [Hle Hname]].
  split; [lia|]. split; [exact Hidle|exact Hname].
Qed.

(** ** Values outside the range, and what the timer does with exceptions *)

(** X3: in a state that is idle, or printing with a last percentage of at
    least 0 as a job start that ran to its end leaves it, a progress that
    is not at least the double [0.01] (a negative number, a zero, a tiny
    positive number, NaN or minus infinity) leaves the whole world as it
    is: no field changes, nothing is logged, no thread is started, the
    clock is not read. *)
Theorem small_progress_changes_nothing (w : World) (p : float) :
  (_is_printing (self w) = true -> 0 <= _last_progress (self w)) ->
  valid p = true -> fle c001 p = false ->
  exec (PrintProgressChanged p) w = w.
Proof.
  intros Hstarted Hv Hsmall. unfold exec. cbn [perform].
  destruct (_is_printing (self w)) eqn:Hp.
  2:{ rewrite progress_idle by assumption. reflexivity. }
  destruct (py_int (fmul p c100)) as [k|e] eqn:Hk.
  2:{ rewrite (progress_raises p e) by assumption. reflexivity. }
  destruct (Z_le_gt_dec k (_last_progress (self w))) as [Hle|Hgt].
  { rewrite (progress_stale p k) by assumption. reflexivity. }
  exfalso.
  pose proof (Hstarted eq_refl) as H0.
  destruct (percent_positive_progress p k Hv Hk ltac:(lia)) as [_ [Hge _]].
  rewrite Hge in Hsmall. discriminate.
Qed.

(** X2: while a job prints, a NaN makes the progress handler raise
    [ValueError] and an infinity makes it raise [OverflowError], both from
    [int], before any field is written: the world is as it was. *)
Theorem non_finite_progress_raises (w : World) :
  _is_printing (self w) = true ->
  _on_print_progress_changed S754_nan w =
    (Raise (ValueError "cannot convert float NaN to integer"), w) /\
  (forall s : bool,
      _on_print_progress_changed (S754_infinity s) w =
      (Raise (OverflowError "cannot convert float infinity to integer"), w)).
Proof.
  intros Hp. split.
  - apply progress_raises; [exact Hp|]. rewrite mul100_nan. reflexivity.
  - intros s. apply progress_raises; [exact Hp|]. rewrite mul100_infinity. reflexivity.
Qed.

Lemma check_devices_app (ds1 ds2 : list Device) (w : World) :
  check_devices (ds1 ++ ds2) w =
  bind (check_devices ds1) (fun _ => check_devices ds2) w.
Proof.
  revert w. induction ds1 as [|d rest IH]; intros w.
  - unfold bind. reflexivity.
  - cbn [app check_devices]. unfold bind in *.
    destruct (check_device d w) as [[[]|e] w1]; [|reflexivity].
    apply IH.
Qed.

(** X1: a timer tick never raises, whatever the devices report. When the
    handling of one device raises, the tick ends there: the exception is
    logged as an error and the devices after it are not looked at in this
    tick. *)
Theorem timer_tick_never_raises (output_devices : list Device) (w : World) :
  fst (_check_print_progress output_devices w) = Return tt /\
  (forall (ds1 ds2 : list Device) (d : Device) (e : exn) (w1 w2 : World),
      output_devices = ds1 ++ d :: ds2 ->
      url_unconfigured (_webhook_url (self w)) = false ->
      check_devices ds1 w = (Return tt, w1) ->
      check_device d w1 = (Raise e, w2) ->
      _check_print_progress output_devices w =
      (Return tt, mkWorld (self w2) (logged w2 ++ [("e", MsgCheckError e)])
                          (threads w2) (requests w2) (time_calls w2))).
Proof.
  split.
  - unfold _check_print_progress, bind, get_self, try_except.
    destruct (url_unconfigured (_webhook_url (self w))); [reflexivity|].
    destruct (check_devices output_devices w) as [[[]|e] w1]; reflexivity.
  - intros ds1 ds2 d e w1 w2 -> Hu H1 Hd.
    unfold _check_print_progress, bind at 1, get_self, try_except. rewrite Hu.
    rewrite check_devices_app. unfold bind at 1. rewrite H1.
    cbn [check_devices]. unfold bind at 1. rewrite Hd. reflexivity.
Qed.

(** ** Who talks to the network *)

Lemma no_io_modify_self (R : list Request) (url : string) (f : Plugin -> Plugin) :
  (forall p, _webhook_url (f p) = _webhook_url p) ->
  preserves (no_io R url) (modify_self f).
Proof. intros Hf w [Hr Hu]. split; cbn; [exact Hr|rewrite Hf; exact Hu]. Qed.

Lemma no_io_unchanged {A : Type} (R : list Request) (url : string) (c : M A) :
  (forall w, self (snd (c w)) = self w /\ requests (snd (c w)) = requests w) ->
  preserves (no_io R url) c.
Proof.
  intros Hc w [Hr Hu]. destruct (Hc w) as [Hs Hq].
  split; [rewrite Hq; exact Hr|rewrite Hs; exact Hu].
Qed.

Lemma no_io_send_update (R : list Request) (url : string)
      (event_type : string) (d : dict) :
  preserves (no_io R url) (_send_webhook_update event_type d).
Proof.
  apply no_io_unchanged. intros w.
  destruct (send_update_frame event_type d w) as [_ [Hs [Hq _]]].
  split; assumption.
Qed.

Lemma no_io_job_changed (R : list Request) (url : string) (job : option Job) :
  preserves (no_io R url) (_on_print_job_changed job).
Proof.
  intros w [Hr Hu].
  destruct job as [j|].
  - destruct (job_name j) as [name|e] eqn:Hn.
    + rewrite (job_started_run j name w Hn).
      apply no_io_send_update; split; assumption.
    + rewrite (job_start_cut j e w Hn). split; assumption.
  - rewrite job_ended_run. apply no_io_send_update; split; assumption.
Qed.

Ltac no_io_steps :=
  repeat first
    [ apply preserves_ret
    | apply preserves_lift
    | apply preserves_get_self
    | apply no_io_send_update
    | apply no_io_job_changed
    | apply no_io_unchanged; intros; split; reflexivity
    | apply no_io_modify_self; intros; reflexivity
    | apply preserves_if
    | apply preserves_bind; [|intros ?] ].

Lemma no_io_progress_changed (R : list Request) (url : string) (p : float) :
  preserves (no_io R url) (_on_print_progress_changed p).
Proof. unfold _on_print_progress_changed, set_last_progress. no_io_steps. Qed.

Lemma no_io_check_device (R : list Request) (url : string) (device : Device) :
  preserves (no_io R url) (check_device device).
Proof.
  unfold check_device.
  destruct (activePrintJob device) as [[job|]|].
  - apply preserves_bind; [apply preserves_get_self|intros printing].
    apply preserves_bind.
    + apply preserves_if; [apply no_io_job_changed|apply preserves_ret].
    + intros _.
      destruct (match getProgress job with
                | Some v => v
                | None => match printProgress device with
                          | Some v => v
                          | None => Some zero
                          end
                end) as [p|]; [apply no_io_progress_changed|apply preserves_ret].
  - apply preserves_bind; [apply preserves_get_self|intros printing].
    apply preserves_if; [apply no_io_job_changed|apply preserves_ret].
  - apply preserves_ret.
Qed.

Lemma no_io_check_devices (R : list Request) (url : string)
      (output_devices : list Device) :
  preserves (no_io R url) (check_devices output_devices).
Proof.
  induction output_devices as [|device rest IH]; cbn [check_devices].
  - apply preserves_ret.
  - apply preserves_bind; [apply no_io_check_device|intros _; exact IH].
Qed.

Lemma no_io_check_print_progress (R : list Request) (url : string)
      (output_devices : list Device) :
  preserves (no_io R url) (_check_print_progress output_devices).
Proof.
  unfold _check_print_progress.
  apply preserves_bind; [apply preserves_get_self|intros u].
  apply preserves_if; [apply preserves_ret|].
  apply preserves_try_except; [apply no_io_check_devices|intros e].
  apply no_io_unchanged. intros w. split; reflexivity.
Qed.

(** X7: the handlers of the host's signals and the timer tick never issue
    an HTTP request, and nothing but [setWebhookUrl] changes the URL; a
    request is only issued when a thread runs, one at most. *)
Theorem handlers_do_no_io (a : action) (w : World) :
  ((forall n, a <> ThreadRun n) -> requests (exec a w) = requests w) /\
  ((forall url, a <> SetWebhookUrl url) ->
   _webhook_url (self (exec a w)) = _webhook_url (self w)) /\
  (exists reqs,
      requests (exec a w) = requests w ++ reqs /\ (List.length reqs <= 1)%nat).
Proof.
  assert (Hw : no_io (requests w) (_webhook_url (self w)) w) by (split; reflexivity).
  destruct a as [job|p|st|ds|url|n]; unfold exec; cbn [perform].
  - destruct (no_io_job_changed _ _ job w Hw) as [Hr Hu].
    split; [intros _; exact Hr|]. split; [intros _; exact Hu|].
    exists []. rewrite app_nil_r. split; [exact Hr|cbn; lia].
  - destruct (no_io_progress_changed _ _ p w Hw) as [Hr Hu].
    split; [intros _; exact Hr|]. split; [intros _; exact Hu|].
    exists []. rewrite app_nil_r. split; [exact Hr|cbn; lia].
  - split; [intros _; reflexivity|]. split; [intros _; reflexivity|].
    exists []. rewrite app_nil_r. split; [reflexivity|cbn; lia].
  - destruct (no_io_check_print_progress _ _ ds w Hw) as [Hr Hu].
    split; [intros _; exact Hr|]. split; [intros _; exact Hu|].
    exists []. rewrite app_nil_r. split; [exact Hr|cbn; lia].
  - split; [intros _; reflexivity|].
    split; [intros H; contradiction (H url); reflexivity|].
    exists []. rewrite app_nil_r. split; [reflexivity|cbn; lia].
  - split; [intros H; contradiction (H n); reflexivity|].
    unfold bind, take_thread.
    destruct (nth_error (threads w) n) as [payload|].
    + match goal with
      | |- context [_send_webhook_request payload ?w1] =>
          destruct (send_request_run payload w1) as [entry [reqs [Hrun Hlen]]];
            rewrite Hrun
      end.
      cbn. split; [intros _; reflexivity|]. exists reqs. split; [reflexivity|exact Hlen].
    + cbn. split; [intros _; reflexivity|].
      exists []. rewrite app_nil_r. split; [reflexivity|cbn; lia].
Qed.

(** ** From an event to its request *)

Lemma thread_runs_after_send (event_type : string) (d : dict) (w : World) :
  url_unconfigured (_webhook_url (self w)) = false ->
  threads w = [] ->
  exec (ThreadRun 0) (snd (_send_webhook_update event_type d w)) =
  snd (_send_webhook_request (event_payload event_type d) w).
Proof.
  intros Hu Ht.
  rewrite (send_update_started event_type d w Hu). cbn [snd].
  unfold exec. cbn [perform]. unfold bind at 1, take_thread.
  cbn [threads]. rewrite Ht. cbn [app nth_error firstn skipn].
  destruct w as [p l t r n]. cbn in Ht. subst t. reflexivity.
Qed.

(** X6: with a URL configured and no thread waiting, an event that is
    handed to [_send_webhook_update] and whose thread then runs gives
    exactly one request: to the URL, with the serialized payload as its
    body and the two headers. No thread waits afterwards and the tracker
    is as it was. An answer of 200 logs the success with the type of the
    event, another status logs a warning with the status. *)
Theorem event_is_delivered (event_type : string) (d : dict) (w : World)
        (body : string) :
  url_unconfigured (_webhook_url (self w)) = false ->
  url_accepted (_webhook_url (self w)) = true ->
  threads w = [] ->
  json_dumps (event_payload event_type d) = Return body ->
  self (exec (ThreadRun 0) (snd (_send_webhook_update event_type d w))) = self w /\
  threads (exec (ThreadRun 0) (snd (_send_webhook_update event_type d w))) = [] /\
  requests (exec (ThreadRun 0) (snd (_send_webhook_update event_type d w))) =
    requests w ++ [mkRequest (_webhook_url (self w)) body request_headers] /\
  (urlopen_result (List.length (requests w))
     (mkRequest (_webhook_url (self w)) body request_headers) 10 = Return 200 ->
   logged (exec (ThreadRun 0) (snd (_send_webhook_update event_type d w))) =
     logged w ++ [("d", MsgSentSuccessfully (PStr event_type))]) /\
  (forall code,
      urlopen_result (List.length (requests w))
        (mkRequest (_webhook_url (self w)) body request_headers) 10 = Return code ->
      code <> 200 ->
      logged (exec (ThreadRun 0) (snd (_send_webhook_update event_type d w))) =
        logged w ++ [("w", MsgReturnedStatus code)]).
Proof.
  intros Hu Ha Ht Hj.
  rewrite (thread_runs_after_send event_type d w Hu Ht).
  unfold _send_webhook_request, try_except, bind, lift, get_self, urllib_Request, urlopen.
  rewrite Hj, Ha. cbn [self logged threads requests time_calls].
  destruct (urlopen_result (List.length (requests w))
              (mkRequest (_webhook_url (self w)) body request_headers) 10)
    as [code|e] eqn:Ho.
  - destruct (code =? 200) eqn:Hc.
    + apply Z.eqb_eq in Hc. subst code. cbn.
      split; [reflexivity|]. split; [exact Ht|]. split; [reflexivity|]. split.
      * intros _. reflexivity.
      * intros code Hcode Hne. injection Hcode as <-. contradiction.
    + apply Z.eqb_neq in Hc. cbn.
      split; [reflexivity|]. split; [exact Ht|]. split; [reflexivity|]. split.
      * intros H200. injection H200 as ->. contradiction.
      * intros code' Hcode _. injection Hcode as <-. reflexivity.
  - rewrite except_clauses_log. cbn.
    split; [reflexivity|]. split; [exact Ht|]. split; [reflexivity|]. split.
    * intros H200. discriminate.
    * intros code Hcode _. discriminate.
Qed.

(** ** Configuring the URL *)

Lemma url_unconfigured_spec (url : string) :
  url_unconfigured url = true <-> url = "" \/ url = placeholder_url.
Proof.
  unfold url_unconfigured. rewrite orb_true_iff, !String.eqb_eq. reflexivity.
Qed.

(** X8: [setWebhookUrl] stores the URL as it is given and leaves the
    tracker and the waiting threads alone. An event after it starts a
    thread exactly when the URL is neither the empty string nor the
    placeholder (nothing else about the URL is checked); otherwise the
    event only leaves the warning in the log. *)
Theorem set_url_decides_sending (url event_type : string) (d : dict) (w : World) :
  self (exec (SetWebhookUrl url) w) =
    mkPlugin url (_last_progress (self w)) (_is_printing (self w))
             (_current_job_name (self w)) (_print_start_time (self w)) /\
  threads (exec (SetWebhookUrl url) w) = threads w /\
  (url = "" \/ url = placeholder_url ->
   threads (snd (_send_webhook_update event_type d (exec (SetWebhookUrl url) w))) =
     threads w /\
   logged (snd (_send_webhook_update event_type d (exec (SetWebhookUrl url) w))) =
     logged w ++ [("i", MsgUrlSet url); ("w", MsgNotConfiguredSkipping)]) /\
  (url <> "" -> url <> placeholder_url ->
   threads (snd (_send_webhook_update event_type d (exec (SetWebhookUrl url) w))) =
     threads w ++ [event_payload event_type d] /\
   logged (snd (_send_webhook_update event_type d (exec (SetWebhookUrl url) w))) =
     logged w ++ [("i", MsgUrlSet url)]).
Proof.
  split; [reflexivity|]. split; [reflexivity|]. split.
  - intros Hs. apply url_unconfigured_spec in Hs.
    rewrite send_update_blocked by exact Hs. cbn.
    split; [reflexivity|]. rewrite <- app_assoc. reflexivity.
  - intros H1 H2.
    assert (Hc : url_unconfigured url = false).
    { destruct (url_unconfigured url) eqn:Hu; [|reflexivity].
      apply url_unconfigured_spec in Hu. destruct Hu; contradiction. }
    rewrite send_update_started by exact Hc. cbn. split; reflexivity.
Qed.

Lemma init_world_silenced : silenced [] init_world.
Proof. repeat split. Qed.

(** X9: [_load_settings] leaves the placeholder whatever the URL was, and
    a plugin that was just constructed has logged the warning about it.
    Whatever happens then, as long as [setWebhookUrl] is not called with a
    configured URL, no HTTP request is issued and no thread is started. *)
Theorem fresh_plugin_is_silent (acts : list action) :
  (forall url, In (SetWebhookUrl url) acts -> url_unconfigured url = true) ->
  (forall w, _webhook_url (self (snd (_load_settings w))) = placeholder_url) /\
  logged init_world = [("w", MsgNoUrlConfigured); ("i", MsgInitialized)] /\
  requests (run acts init_world) = [] /\
  threads (run acts init_world) = [] /\
  url_unconfigured (_webhook_url (self (run acts init_world))) = true.
Proof.
  intros Hset.
  split; [intros w; reflexivity|]. split; [reflexivity|].
  exact (silenced_run [] acts Hset init_world init_world_silenced).
Qed.

(** ** Several devices, several ticks *)



(** The progress handler while a job prints, seen from outside: the job
    still prints afterwards, at most one thread is started, and the last
    percentage is at least the one that was delivered. *)
Lemma progress_settles (p : float) (w : World) :
  tracker_inv (self w) ->
  _is_printing (self w) = true ->
  exists o w2 middle,
    _on_print_progress_changed p w = (o, w2) /\
    _is_printing (self w2) = true /\
    tracker_inv (self w2) /\
    _webhook_url (self w2) = _webhook_url (self w) /\
    (url_unconfigured (_webhook_url (self w)) = false ->
     threads w2 = threads w ++ middle /\ (List.length middle <= 1)%nat) /\
    (forall k, py_int (fmul p c100) = Return k ->
               o = Return tt /\ k <= _last_progress (self w2)) /\
    (forall e, py_int (fmul p c100) = Raise e -> o = Raise e /\ w2 = w).
Proof.
  intros Hi Hp.
  destruct (py_int (fmul p c100)) as [k|e] eqn:Hk.
  2:{ exists (Raise e), w, []. rewrite (progress_raises p e) by assumption.
      split; [reflexivity|]. split; [exact Hp|]. split; [exact Hi|].
      split; [reflexivity|]. split.
      - intros _. rewrite app_nil_r. split; [reflexivity|cbn; lia].
      - split; [intros k Hk'; discriminate|].
        intros e' He. injection He as <-. split; reflexivity. }
  destruct (Z_le_gt_dec k (_last_progress (self w))) as [Hle|Hgt].
  { exists (Return tt), w, []. rewrite (progress_stale p k) by assumption.
    split; [reflexivity|]. split; [exact Hp|]. split; [exact Hi|].
    split; [reflexivity|]. split.
    - intros _. rewrite app_nil_r. split; [reflexivity|cbn; lia].
    - split; [|intros e He; discriminate].
      intros k' Hk'. injection Hk' as <-. split; [reflexivity|exact Hle]. }
  pose proof (progress_inv p w Hi) as Hi'.
  destruct (progress_event_effect p k w Hi Hp Hk ltac:(lia)) as [Hf [Hs _]].
  destruct (progress_event p k w Hi Hp Hk ltac:(lia)) as [t0 [Ht Hrun]].
  unfold exec in Hs. cbn [perform] in Hs.
  destruct (_on_print_progress_changed p w) as [o w2] eqn:Hrun'.
  cbn [fst snd] in *. subst o.
  destruct (url_unconfigured (_webhook_url (self w))) eqn:Hu.
  - rewrite send_update_blocked in Hrun by exact Hu.
    exists (Return tt), w2, []. split; [reflexivity|].
    rewrite Hs. cbn. split; [reflexivity|]. rewrite Hs in Hi'.
    split; [exact Hi'|]. split; [reflexivity|].
    split; [intros; discriminate|].
    split; [|intros e He; discriminate].
    intros k' Hk'. injection Hk' as <-. split; [reflexivity|lia].
  - rewrite send_update_started in Hrun by exact Hu.
    eexists (Return tt), w2, _. split; [reflexivity|].
    rewrite Hs. cbn. split; [reflexivity|]. rewrite Hs in Hi'.
    split; [exact Hi'|]. split; [reflexivity|].
    split.
    + intros _. injection Hrun as ->. cbn. split; [reflexivity|cbn; lia].
    + split; [|intros e He; discriminate].
      intros k' Hk'. injection Hk' as <-. split; [reflexivity|lia].
Qed.


Lemma tick_single (device : Device) (w : World) :
  url_unconfigured (_webhook_url (self w)) = false ->
  exists entries,
    exec (TimerTick [device]) w =
    mkWorld (self (snd (check_device device w)))
            (logged (snd (check_device device w)) ++ entries)
            (threads (snd (check_device device w)))
            (requests (snd (check_device device w)))
            (time_calls (snd (check_device device w))).
Proof.
  intros Hu. unfold exec. cbn [perform].
  unfold _check_print_progress, bind at 1, get_self at 1, try_except. rewrite Hu.
  cbn [check_devices]. unfold bind at 1.
  destruct (check_device device w) as [[[]|e] w'].
  - exists []. rewrite app_nil_r. destruct w'. reflexivity.
  - exists [("e", MsgCheckError e)]. reflexivity.
Qed.

Lemma tick_settles (device : Device) (w : World) :
  url_unconfigured (_webhook_url (self w)) = false ->
  tracker_inv (self w) ->
  device_named device = true ->
  settled device (self (exec (TimerTick [device]) w)).
Proof.
  intros Hu Hi Hnamed. unfold device_named in Hnamed.
  destruct (tick_single device w Hu) as [entries ->]. cbn [self].
  unfold settled.
  destruct (activePrintJob device) as [[job|]|] eqn:Ha; [| |exact I].
  - assert (Hstart : exists w1,
               check_device device w =
               match polled_progress device job with
               | Some p => _on_print_progress_changed p
               | None => ret tt
               end w1 /\
               tracker_inv (self w1) /\ _is_printing (self w1) = true).
    { rewrite (check_device_polled device job w Ha).
      unfold bind, get_self. destruct (_is_printing (self w)) eqn:Hp; cbn [negb].
      - exists w. split; [reflexivity|]. split; assumption.
      - destruct (job_named_name job Hnamed) as [name Hn].
        rewrite (job_started_returns job w Hnamed).
        exists (exec (PrintJobChanged (Some job)) w).
        split; [reflexivity|].
        destruct (job_started_effect job name w Hn) as [_ [Hs _]]. rewrite Hs.
        split; [|reflexivity].
        split; cbn; intros H; [discriminate|].
        split; [lia|]. exists (time_time (time_calls w)). reflexivity. }
    destruct Hstart as [w1 [-> [Hi1 Hp1]]].
    destruct (polled_progress device job) as [p|].
    + destruct (progress_settles p w1 Hi1 Hp1)
        as [o [w2 [middle [Hrun [Hp2 [_ [_ [_ [Hret _]]]]]]]]].
      rewrite Hrun. cbn [snd]. split; [exact Hp2|].
      intros progress k Hpr Hk. injection Hpr as <-.
      destruct (Hret k Hk) as [_ Hle]. exact Hle.
    + cbn [ret snd]. split; [exact Hp1|]. intros progress k Hpr. discriminate.
  - assert (Hend : snd (check_device device w) =
                   if _is_printing (self w) then exec (PrintJobChanged None) w else w).
    { unfold check_device. rewrite Ha. unfold bind, get_self.
      destruct (_is_printing (self w)); [rewrite job_ended_returns|]; reflexivity. }
    rewrite Hend. destruct (_is_printing (self w)) eqn:Hp.
    + destruct (job_ended_effect w) as [_ [Hs _]]. rewrite Hs. reflexivity.
    + exact Hp.
Qed.

Lemma settled_check_device (device : Device) (w : World) :
  settled device (self w) ->
  snd (check_device device w) = w.
Proof.
  unfold settled. intros Hs.
  destruct (activePrintJob device) as [[job|]|] eqn:Ha.
  - destruct Hs as [Hp Hle].
    rewrite (check_device_polled device job w Ha).
    unfold bind, get_self. rewrite Hp. cbn [negb ret].
    destruct (polled_progress device job) as [p|]; [|reflexivity].
    destruct (py_int (fmul p c100)) as [k|e] eqn:Hk.
    + rewrite (progress_stale p k w Hp Hk (Hle p k eq_refl Hk)). reflexivity.
    + rewrite (progress_raises p e w Hp Hk). reflexivity.
  - unfold check_device. rewrite Ha. unfold bind, get_self. rewrite Hs. reflexivity.
  - unfold check_device. rewrite Ha. reflexivity.
Qed.

(** X11: polling does not repeat itself. After one timer tick over a
    device (with a URL configured) whose job, if it has one, lets its name
    be read, a second tick over the same device changes no field of the
    tracker, starts no thread and issues no request: a job is started once,
    a percentage is reported once. *)
Theorem second_tick_is_quiet (device : Device) (w : World) :
  url_unconfigured (_webhook_url (self w)) = false ->
  tracker_inv (self w) ->
  device_named device = true ->
  self (exec (TimerTick [device]) (exec (TimerTick [device]) w)) =
    self (exec (TimerTick [device]) w) /\
  threads (exec (TimerTick [device]) (exec (TimerTick [device]) w)) =
    threads (exec (TimerTick [device]) w) /\
  requests (exec (TimerTick [device]) (exec (TimerTick [device]) w)) =
    requests (exec (TimerTick [device]) w).
Proof.
  intros Hu Hi Hnamed.
  pose proof (tick_settles device w Hu Hi Hnamed) as Hs.
  set (w1 := exec (TimerTick [device]) w) in *.
  destruct (url_unconfigured (_webhook_url (self w1))) eqn:Hu1.
  - assert (He : exec (TimerTick [device]) w1 = w1).
    { unfold exec. cbn [perform].
      rewrite (check_print_progress_unconfigured [device] w1 Hu1). reflexivity. }
    rewrite He. repeat split.
  - destruct (tick_single device w1 Hu1) as [entries ->].
    rewrite (settled_check_device device w1 Hs). repeat split.
Qed.

(** ** Binding to the signals *)

Lemma bind_device_sound (i : nat) (device : OutputDevice)
      (j : nat) (signal handler : string) :
  In (Connected j signal handler) (bind_device i device) ->
  j = i /\ In (signal, handler) signal_handlers /\
  signal_attribute device signal = Some (Return tt).
Proof.
  unfold bind_device, and_then, connect_if_present, signal_handlers.
  destruct device as [[[[]|e1]|] [[[]|e2]|] [[[]|e3]|]]; cbn;
    intros H;
    repeat match goal with
           | H : _ \/ _ |- _ => destruct H as [H|H]
           | H : False |- _ => contradiction
           | H : CouldNotConnect _ = Connected _ _ _ |- _ => discriminate H
           | H : Connected _ _ _ = Connected _ _ _ |- _ => injection H as <- <- <-
           end;
    (split; [reflexivity|split; [auto 10|reflexivity]]).
Qed.

Lemma bind_device_complete (i : nat) (device : OutputDevice)
      (signal handler : string) :
  (forall s e, signal_attribute device s <> Some (Raise e)) ->
  In (signal, handler) signal_handlers ->
  signal_attribute device signal = Some (Return tt) ->
  In (Connected i signal handler) (bind_device i device).
Proof.
  intros Hok Hin Hs.
  pose proof (Hok "printJobChanged") as H1.
  pose proof (Hok "printProgressChanged") as H2.
  pose proof (Hok "connectionStateChanged") as H3.
  unfold signal_handlers in Hin. cbn in Hin.
  destruct Hin as [Hin|[Hin|[Hin|Hin]]]; try contradiction;
    injection Hin as <- <-;
    unfold bind_device, and_then, connect_if_present;
    destruct device as [[[[]|e1]|] [[[]|e2]|] [[[]|e3]|]]; cbn in *;
    try discriminate;
    try (exfalso; apply (H1 e1); reflexivity);
    try (exfalso; apply (H2 e2); reflexivity);
    try (exfalso; apply (H3 e3); reflexivity);
    tauto.
Qed.

Lemma bind_device_warns_once (i : nat) (device : OutputDevice) :
  (List.length (filter is_warning (bind_device i device)) <= 1)%nat.
Proof.
  unfold bind_device, and_then, connect_if_present.
  destruct device as [[[[]|e1]|] [[[]|e2]|] [[[]|e3]|]]; cbn; lia.
Qed.

Lemma bind_devices_In (effect : binding_effect) (output_devices : list OutputDevice) :
  forall n,
    In effect (bind_devices n output_devices) <->
    exists i device,
      nth_error output_devices i = Some device /\
      In effect (bind_device (n + i) device).
Proof.
  induction output_devices as [|d rest IH]; intros n; cbn [bind_devices].
  - split; [intros []|]. intros [i [device [H _]]]. destruct i; discriminate.
  - rewrite in_app_iff, IH. split.
    + intros [H|[i [device [Hn H]]]].
      * exists 0%nat, d. rewrite Nat.add_0_r. split; [reflexivity|exact H].
      * exists (S i), device. split; [exact Hn|].
        rewrite Nat.add_succ_r. exact H.
    + intros [[|i] [device [Hn H]]].
      * injection Hn as <-. rewrite Nat.add_0_r in H. left. exact H.
      * right. exists i, device. split; [exact Hn|].
        rewrite Nat.add_succ_r in H. exact H.
Qed.

Lemma bind_devices_warnings (output_devices : list OutputDevice) :
  forall n,
    (List.length (filter is_warning (bind_devices n output_devices))
     <= List.length output_devices)%nat.
Proof.
  induction output_devices as [|d rest IH]; intros n; cbn [bind_devices List.length].
  - cbn. lia.
  - rewrite filter_app, length_app.
    pose proof (bind_device_warns_once n d). specialize (IH (S n)). lia.
Qed.

(** X12: [_on_printer_output_devices_changed] connects only the three
    signals a device offers, each to the handler that belongs to it, and
    one device does not stand in the way of another: a device of which no
    [connect] raises gets every signal it offers connected, whatever the
    other devices do. At most one warning is logged per device. *)
Theorem binding_is_per_device (output_devices : list OutputDevice) :
  (forall j signal handler,
      In (Connected j signal handler)
         (_on_printer_output_devices_changed output_devices) ->
      In (signal, handler) signal_handlers /\
      exists device,
        nth_error output_devices j = Some device /\
        signal_attribute device signal = Some (Return tt)) /\
  (forall i device signal handler,
      nth_error output_devices i = Some device ->
      (forall s e, signal_attribute device s <> Some (Raise e)) ->
      In (signal, handler) signal_handlers ->
      signal_attribute device signal = Some (Return tt) ->
      In (Connected i signal handler)
         (_on_printer_output_devices_changed output_devices)) /\
  (List.length (filter is_warning (_on_printer_output_devices_changed output_devices))
   <= List.length output_devices)%nat.
Proof.
  unfold _on_printer_output_devices_changed. split; [|split].
  - intros j signal handler Hin.
    apply bind_devices_In in Hin. destruct Hin as [i [device [Hn Hin]]].
    cbn [Nat.add] in Hin.
    destruct (bind_device_sound i device j signal handler Hin) as [-> [Hh Ha]].
    split; [exact Hh|]. exists device. split; assumption.
  - intros i device signal handler Hn Hok Hh Ha.
    apply bind_devices_In. exists i, device. split; [exact Hn|].
    cbn [Nat.add]. apply bind_device_complete; assumption.
  - apply bind_devices_warnings.
Qed.

Lemma init_world_bounded : bounded_inv (self init_world).
Proof.
  split; [exact init_world_wf|]. split; [cbn; lia|intros _; reflexivity].
Qed.

End Methods.

(** ** The claims at concrete inputs *)

Abbreviation example_exec :=
  (exec example_clock example_json_dumps example_url_accepted example_urlopen_result).
Abbreviation example_run :=
  (run example_clock example_json_dumps example_url_accepted example_urlopen_result).
Abbreviation example_reachable :=
  (reachable example_clock example_json_dumps example_url_accepted example_urlopen_result).

Lemma example_run_reachable (acts : list action) :
  example_reachable (example_run acts init_world).
Proof. apply reachable_run. apply reachable_init. Qed.

(** The constants are the doubles that Python reads from the literals. *)
Example constants_are_rounded :
  of_Z 100 = c100 /\ fdiv one c100 = c001 /\ fdiv (of_Z 15) c100 = c015 /\
  valid c100 = true /\ valid c001 = true /\ valid c015 = true /\ valid half = true.
Proof. vm_compute. repeat split. Qed.

(** The percentage is the floor of the double product, which can be one
    more than the floor of the exact product: the double [0.15] lies below
    15/100, yet [0.15 * 100] rounds to the double 15. *)
Remark percent_of_double_0_15 :
  py_int (fmul c015 c100) = Return 15 /\
  py_floor (fmul c015 c100) = Return 15 /\
  (5404319552844595 * 100) / 2 ^ 55 = 14.
Proof. vm_compute. repeat split. Qed.

(** A job starts and reaches fifty percent; the host then pushes another
    job-changed signal with a job. *)
Example restart_resets_progress :
  let w1 := example_run [PrintJobChanged (Some benchy); PrintProgressChanged half]
                        init_world in
  let w2 := example_exec (PrintJobChanged (Some benchy)) w1 in
  _is_printing (self w1) = true /\ _last_progress (self w1) = 50 /\
  _is_printing (self w2) = true /\ _last_progress (self w2) = 0.
Proof. vm_compute. repeat split. Qed.

Lemma last_progress_invariant_witness :
  let w := example_run [PrintJobChanged (Some benchy); PrintProgressChanged half]
                       init_world in
  _last_progress (self w) = 50 /\
  _last_progress (self w) <=
    _last_progress (self (example_exec (PrintProgressChanged c015) w)) /\
  _last_progress (self (example_exec (PrintJobChanged (Some benchy)) w)) = 0.
Proof.
  intros w.
  destruct (last_progress_invariant
              example_clock example_json_dumps example_url_accepted
              example_urlopen_result w
              (example_run_reachable
                 [PrintJobChanged (Some benchy); PrintProgressChanged half]))
    as [_ [Hprogress [Hjob _]]].
  split; [vm_compute; reflexivity|].
  split; [exact (proj1 (Hprogress c015))|].
  exact (proj1 (Hjob benchy "benchy.gcode" eq_refl)).
Defined.

Lemma progress_dedup_witness :
  let w := example_run [PrintJobChanged (Some benchy)] init_world in
  py_int (fmul half c100) = Return 50 /\
  _last_progress (self (example_exec (PrintProgressChanged half) w)) = 50 /\
  send_attempts (example_exec (PrintProgressChanged half) w) = S (send_attempts w) /\
  (send_attempts
     (example_run [PrintProgressChanged half; PrintProgressChanged half] w)
   <= S (send_attempts w))%nat.
Proof.
  intros w.
  destruct (progress_dedup
              example_clock example_json_dumps example_url_accepted
              example_urlopen_result w half
              (example_run_reachable [PrintJobChanged (Some benchy)])
              ltac:(vm_compute; reflexivity) ltac:(vm_compute; reflexivity)
              ltac:(vm_compute; reflexivity))
    as [percent [Hi [Hfire [_ [_ Hdedup]]]]].
  assert (Hpercent : percent = 50).
  { vm_compute in Hi. injection Hi as Hi. symmetry. exact Hi. }
  subst percent.
  destruct (Hfire ltac:(split; vm_compute; reflexivity)) as [_ [Hlast [Hattempt _]]].
  split; [exact Hi|]. split; [exact Hlast|]. split; [exact Hattempt|].
  exact (Hdedup half Hi).
Defined.


(** The name of a job cannot be read when the timer finds it: the tick
    ends with the tracker printing at -1. The next tick reads a progress
    of 2^-10 from the device and reports it as 0 percent, with an estimate
    that divides by the progress and not by 0.01. *)
Example tiny_progress_divides_by_itself :
  let d := mkDevice (Some (Some ghost)) (Some (Some tiny)) in
  let w := example_run [SetWebhookUrl example_url; TimerTick [d]] init_world in
  let e := fsub (example_clock (time_calls w)) (S754_zero false) in
  valid tiny = true /\
  _is_printing (self w) = true /\ _last_progress (self w) = -1 /\
  py_sub (example_clock (time_calls w)) (_print_start_time (self w)) = Return e /\
  threads (example_exec (TimerTick [d]) w) =
    [event_payload "progress_update"
       [("job_name", PStr "");
        ("progress_percent", PInt 0);
        ("elapsed_time_seconds", PFloat e);
        ("estimated_remaining_seconds", PFloat (fsub (fdiv e tiny) e));
        ("timestamp", PFloat (example_clock (S (time_calls w))))]] /\
  py_max tiny c001 = c001 /\
  flt (fsub (fdiv e (py_max tiny c001)) e) (fsub (fdiv e tiny) e) = true.
Proof. vm_compute. repeat split. Qed.

Lemma estimate_divisor_witness :
  let w := example_run [PrintJobChanged (Some benchy)] init_world in
  exists d w2 e total,
    _on_print_progress_changed example_clock half w =
    _send_webhook_update "progress_update" d w2 /\
    py_sub (example_clock (time_calls w)) (_print_start_time (self w)) = Return e /\
    py_truediv e (py_max half c001) = Return total /\
    dict_get "elapsed_time_seconds" d = Some (PFloat e) /\
    dict_get "estimated_remaining_seconds" d = Some (PFloat (fsub total e)).
Proof.
  intros w.
  destruct (estimate_divisor
              example_clock example_json_dumps example_url_accepted
              example_urlopen_result w half
              (example_run_reachable [PrintJobChanged (Some benchy)])
              ltac:(vm_compute; reflexivity)
              ltac:(vm_compute; intros H; discriminate H))
    as [d [w2 [e [total [Hrun [Hsub [Hdiv [He [Hrem [Hstarted _]]]]]]]]]].
  exists d, w2, e, total.
  rewrite <- (Hstarted ltac:(vm_compute; intros H; discriminate H)).
  split; [exact Hrun|]. split; [exact Hsub|]. split; [exact Hdiv|].
  split; [exact He|exact Hrem].
Defined.

(** A job prints, a URL is configured, and a progress of zero arrives:
    the world stays as it is and no thread is started for it. *)
Example zero_progress_makes_no_event :
  let w := example_run [SetWebhookUrl example_url; PrintJobChanged (Some benchy)]
                       init_world in
  _is_printing (self w) = true /\
  url_unconfigured (_webhook_url (self w)) = false /\
  _on_print_progress_changed example_clock zero w = (Return tt, w) /\
  threads (example_exec (PrintProgressChanged zero) w) =
    [event_payload "print_started"
       [("job_name", PStr "benchy.gcode"); ("start_time", PFloat (example_clock 0))]].
Proof. vm_compute. repeat split. Qed.

Lemma zero_progress_while_printing_witness :
  let w := example_run [SetWebhookUrl example_url; PrintJobChanged (Some benchy)]
                       init_world in
  _on_print_progress_changed example_clock zero w = (Return tt, w) /\
  example_exec (PrintProgressChanged zero) w = w.
Proof.
  intros w.
  apply (proj1 (zero_progress_while_printing
                  example_clock example_json_dumps example_url_accepted
                  example_urlopen_result w false
                  (example_run_reachable
                     [SetWebhookUrl example_url; PrintJobChanged (Some benchy)])
                  ltac:(vm_compute; reflexivity))).
  vm_compute. intros H. discriminate H.
Defined.

Lemma unconfigured_url_sends_nothing_witness :
  let acts := [PrintJobChanged (Some benchy); PrintProgressChanged half;
               TimerTick [mkDevice (Some None) None]; ThreadRun 0;
               SetWebhookUrl ""; PrintJobChanged None] in
  requests (example_run acts init_world) = [] /\
  threads (example_run acts init_world) = [] /\
  url_unconfigured (_webhook_url (self (example_run acts init_world))) = true.
Proof.
  intros acts.
  destruct (unconfigured_url_sends_nothing
              example_clock example_json_dumps example_url_accepted
              example_urlopen_result acts init_world
              ltac:(vm_compute; reflexivity) ltac:(vm_compute; reflexivity))
    as [Hrequests [Hthreads [Hurl _]]].
  - intros u Hin. simpl in Hin.
    repeat (destruct Hin as [Hin|Hin]; [try discriminate Hin|]).
    + injection Hin as <-. vm_compute. reflexivity.
    + contradiction.
  - split; [exact Hrequests|]. split; [exact Hthreads|exact Hurl].
Defined.

(** A job that started at the first reading of the clock ends: the start
    time is still that reading, not the 0 of a new plugin. *)
Example job_end_keeps_start_time :
  let w := example_run [PrintJobChanged (Some benchy)] init_world in
  _is_printing (self w) = true /\
  _is_printing (self (example_exec (PrintJobChanged None) w)) = false /\
  _print_start_time (self (example_exec (PrintJobChanged None) w)) =
    PFloat (example_clock 0) /\
  _print_start_time new_plugin = PInt 0.
Proof. vm_compute. repeat split. Qed.

Lemma job_end_resets_tracker_witness :
  let w := example_run [SetWebhookUrl example_url; PrintJobChanged (Some benchy)]
                       init_world in
  _is_printing (self (example_exec (PrintJobChanged None) w)) = false /\
  _current_job_name (self (example_exec (PrintJobChanged None) w)) = "" /\
  _last_progress (self (example_exec (PrintJobChanged None) w)) = -1 /\
  send_attempts (example_exec (PrintJobChanged None) w) = S (send_attempts w).
Proof.
  intros w.
  destruct (job_end_resets_tracker
              example_clock example_json_dumps example_url_accepted
              example_urlopen_result w ltac:(vm_compute; reflexivity))
    as [_ [_ [Hprinting [Hname [Hlast [_ [Hattempt _]]]]]]].
  split; [exact Hprinting|]. split; [exact Hname|]. split; [exact Hlast|exact Hattempt].
Defined.

(** The name of a job cannot be read when the timer finds it: the tick
    ends with the tracker printing at -1. The next tick reads the default
    progress 0.0, reports 0 percent and divides by the 0.01 of the [else]
    branch. *)
Example zero_progress_fires_after_cut_start :
  let d := mkDevice (Some (Some ghost)) None in
  let w := example_run [SetWebhookUrl example_url; TimerTick [d]] init_world in
  let e := fsub (example_clock (time_calls w)) (S754_zero false) in
  _is_printing (self w) = true /\ _last_progress (self w) = -1 /\
  logged w =
    [("w", MsgNoUrlConfigured); ("i", MsgInitialized); ("i", MsgUrlSet example_url);
     ("e", MsgCheckError (OtherException "wrapped object has been deleted"))] /\
  threads w = [] /\
  threads (example_exec (TimerTick [d]) w) =
    [event_payload "progress_update"
       [("job_name", PStr "");
        ("progress_percent", PInt 0);
        ("elapsed_time_seconds", PFloat e);
        ("estimated_remaining_seconds", PFloat (fsub (fdiv e c001) e));
        ("timestamp", PFloat (example_clock (S (time_calls w))))]] /\
  send_attempts (example_exec (PrintProgressChanged zero) w) = S (send_attempts w) /\
  fle c001 zero = false /\ flt zero zero = false /\ divisor zero = c001.
Proof. vm_compute. repeat split. Qed.

Lemma progress_event_needs_one_percent_witness :
  fle c001 half = true /\ flt zero half = true /\
  divisor half = half /\ fle c001 (divisor half) = true.
Proof.
  apply (proj1 (progress_event_needs_one_percent
                  example_clock example_json_dumps example_url_accepted
                  example_urlopen_result
                  (example_run [PrintJobChanged (Some benchy)] init_world) half
                  (example_run_reachable [PrintJobChanged (Some benchy)])
                  ltac:(vm_compute; reflexivity)
                  ltac:(vm_compute; intros H; discriminate H))).
  vm_compute. intros H. discriminate H.
Defined.

(** The scenario of the specification: at ten percent, 0.10 again makes no
    event and 0.11 makes the event for eleven percent. *)
Example eleven_percent_scenario :
  let w := example_run [SetWebhookUrl example_url; PrintJobChanged (Some benchy);
                        PrintProgressChanged (fdiv (of_Z 10) c100)] init_world in
  _last_progress (self w) = 10 /\
  example_exec (PrintProgressChanged (fdiv (of_Z 10) c100)) w = w /\
  _last_progress (self (example_exec (PrintProgressChanged (fdiv (of_Z 11) c100)) w))
    = 11 /\
  List.length (threads w) = 2%nat /\
  List.length (threads (example_exec (PrintProgressChanged (fdiv (of_Z 11) c100)) w))
    = 3%nat.
Proof. vm_compute. repeat split. Qed.

(** A thread runs its request against a server that answers 200. *)
Example thread_logs_success :
  let w := example_run [SetWebhookUrl example_url; PrintJobChanged (Some benchy);
                        ThreadRun 0] init_world in
  threads w = [] /\
  List.length (requests w) = 1%nat /\
  last (logged w) ("", MsgInitialized) =
    ("d", MsgSentSuccessfully (PStr "print_started")).
Proof. vm_compute. repeat split. Qed.

(** The thread reads [self._webhook_url] when it runs, not when it is
    started: a thread that was started under a configured URL and runs
    after the URL was set back to the placeholder sends its request to the
    placeholder. This is why the statement about the unconfigured URL asks
    that no thread waits. *)
Example waiting_thread_reads_url_late :
  let w := example_run [SetWebhookUrl example_url; PrintJobChanged (Some benchy);
                        SetWebhookUrl placeholder_url; ThreadRun 0] init_world in
  url_unconfigured (_webhook_url (self w)) = true /\
  requests w = [mkRequest placeholder_url "{}" request_headers].
Proof. vm_compute. repeat split. Qed.

(** ** Further properties at concrete inputs *)

Lemma example_configured_inv :
  tracker_inv (self (example_run [SetWebhookUrl example_url] init_world)).
Proof. split; vm_compute; intros H; [reflexivity|discriminate H]. Qed.

Lemma timer_tick_never_raises_witness :
  let nan_device := mkDevice (Some (Some benchy)) (Some (Some S754_nan)) in
  let end_device := mkDevice (Some None) None in
  let w := example_run [SetWebhookUrl example_url; PrintJobChanged (Some benchy)]
                       init_world in
  _check_print_progress example_clock [nan_device; end_device] w =
  (Return tt,
   mkWorld (self w)
           (logged w ++
            [("e", MsgCheckError (ValueError "cannot convert float NaN to integer"))])
           (threads w) (requests w) (time_calls w)).
Proof.
  intros nan_device end_device w.
  apply (proj2 (timer_tick_never_raises example_clock [nan_device; end_device] w)
           [] [end_device] nan_device
           (ValueError "cannot convert float NaN to integer") w w).
  - reflexivity.
  - vm_compute. reflexivity.
  - reflexivity.
  - vm_compute. reflexivity.
Defined.

Lemma non_finite_progress_raises_witness :
  let w := example_run [PrintJobChanged (Some benchy)] init_world in
  _on_print_progress_changed example_clock S754_nan w =
    (Raise (ValueError "cannot convert float NaN to integer"), w) /\
  _on_print_progress_changed example_clock (S754_infinity false) w =
    (Raise (OverflowError "cannot convert float infinity to integer"), w).
Proof.
  intros w.
  destruct (non_finite_progress_raises example_clock w ltac:(vm_compute; reflexivity))
    as [Hnan Hinf].
  split; [exact Hnan|exact (Hinf false)].
Defined.

Lemma small_progress_changes_nothing_witness :
  let w := example_run [SetWebhookUrl example_url; PrintJobChanged (Some benchy)]
                       init_world in
  example_exec (PrintProgressChanged (S754_finite true 4503599627370496 (-53))) w = w.
Proof.
  intros w.
  apply (small_progress_changes_nothing
           example_clock example_json_dumps example_url_accepted
           example_urlopen_result w (S754_finite true 4503599627370496 (-53))
           ltac:(intros _; vm_compute; intros H; discriminate H)).
  - vm_compute. reflexivity.
  - vm_compute. reflexivity.
Defined.

(** The code does not clamp: a progress of 1.5 is reported as 150. *)
Example progress_above_one_is_not_clamped :
  let w := example_run [SetWebhookUrl example_url; PrintJobChanged (Some benchy);
                        PrintProgressChanged (fdiv (of_Z 3) (of_Z 2))] init_world in
  valid (fdiv (of_Z 3) (of_Z 2)) = true /\
  _last_progress (self w) = 150.
Proof. vm_compute. repeat split. Qed.

Lemma last_progress_stays_in_range_witness :
  let acts := [PrintJobChanged (Some benchy); PrintProgressChanged half;
               TimerTick [mkDevice (Some (Some benchy)) (Some (Some one))];
               SetWebhookUrl example_url;
               TimerTick [mkDevice (Some (Some benchy)) (Some (Some one))]] in
  _last_progress (self (example_run acts init_world)) = 100 /\
  -1 <= _last_progress (self (example_run acts init_world)) <= 100.
Proof.
  intros acts.
  destruct (last_progress_stays_in_range
              example_clock example_json_dumps example_url_accepted
              example_urlopen_result acts init_world
              init_world_bounded ltac:(vm_compute; reflexivity))
    as [Hrange _].
  split; [vm_compute; reflexivity|exact Hrange].
Defined.

Lemma event_stream_replays_tracker_witness :
  let w := example_run [SetWebhookUrl example_url] init_world in
  let acts := [PrintJobChanged (Some benchy); PrintProgressChanged half;
               PrintProgressChanged c015;
               TimerTick [mkDevice (Some None) None];
               TimerTick [mkDevice (Some (Some benchy)) (Some (Some half))]] in
  List.length (threads (example_run acts w)) = 5%nat /\
  exists events,
    threads (example_run acts w) = threads w ++ events /\
    replay (tracker_state (self w)) events =
      Some (tracker_state (self (example_run acts w))).
Proof.
  intros w acts.
  split; [vm_compute; reflexivity|].
  apply (event_stream_replays_tracker
           example_clock example_json_dumps example_url_accepted
           example_urlopen_result acts w).
  - vm_compute. reflexivity.
  - exact example_configured_inv.
  - vm_compute. reflexivity.
Defined.

Lemma event_is_delivered_witness :
  let w := example_run [SetWebhookUrl example_url] init_world in
  let w' := example_exec (ThreadRun 0)
              (snd (_send_webhook_update "print_started" [] w)) in
  threads w' = [] /\
  requests w' = requests w ++ [mkRequest example_url "{}" request_headers] /\
  logged w' = logged w ++ [("d", MsgSentSuccessfully (PStr "print_started"))].
Proof.
  intros w w'.
  destruct (event_is_delivered
              example_clock example_json_dumps example_url_accepted
              example_urlopen_result
              "print_started" [] w "{}"
              ltac:(vm_compute; reflexivity) ltac:(vm_compute; reflexivity)
              ltac:(vm_compute; reflexivity) ltac:(vm_compute; reflexivity))
    as [_ [Hthreads [Hrequests [Hok _]]]].
  split; [exact Hthreads|]. split; [exact Hrequests|].
  apply Hok. vm_compute. reflexivity.
Defined.

Lemma fresh_plugin_is_silent_witness :
  let acts := [PrintJobChanged (Some benchy); PrintProgressChanged half;
               TimerTick [mkDevice (Some (Some benchy)) None]; ThreadRun 0;
               PrintJobChanged None] in
  requests (example_run acts init_world) = [] /\
  threads (example_run acts init_world) = [].
Proof.
  intros acts.
  destruct (fresh_plugin_is_silent
              example_clock example_json_dumps example_url_accepted
              example_urlopen_result acts)
    as [_ [_ [Hrequests [Hthreads _]]]].
  - intros url Hin. simpl in Hin.
    repeat (destruct Hin as [Hin|Hin]; [discriminate Hin|]).
    contradiction.
  - split; [exact Hrequests|exact Hthreads].
Defined.


Lemma second_tick_is_quiet_witness :
  let w := example_run [SetWebhookUrl example_url] init_world in
  let d := mkDevice (Some (Some benchy)) (Some (Some half)) in
  List.length (threads (example_exec (TimerTick [d]) w)) = 2%nat /\
  threads (example_exec (TimerTick [d]) (example_exec (TimerTick [d]) w)) =
    threads (example_exec (TimerTick [d]) w).
Proof.
  intros w d.
  destruct (second_tick_is_quiet
              example_clock example_json_dumps example_url_accepted
              example_urlopen_result d w
              ltac:(vm_compute; reflexivity)
              example_configured_inv
              ltac:(reflexivity))
    as [_ [Hthreads _]].
  split; [vm_compute; reflexivity|exact Hthreads].
Defined.

(** Three devices: the first offers all signals, the second raises at its
    first [connect], the third offers one signal. *)
Example binding_three_devices :
  _on_printer_output_devices_changed
    [mkOutputDevice (Some (Return tt)) (Some (Return tt)) (Some (Return tt));
     mkOutputDevice (Some (Raise (OtherException "no signal"))) (Some (Return tt)) None;
     mkOutputDevice None (Some (Return tt)) None] =
  [Connected 0 "printJobChanged" "_on_print_job_changed";
   Connected 0 "printProgressChanged" "_on_print_progress_changed";
   Connected 0 "connectionStateChanged" "_on_connection_state_changed";
   CouldNotConnect (OtherException "no signal");
   Connected 2 "printProgressChanged" "_on_print_progress_changed"].
Proof. reflexivity. Qed.
